(** * DECIMER image segmentation: [complete_structure.py]

    A shallow embedding of the pixel-classification core of
    [decimer_segmentation/complete_structure.py] together with the
    properties its specification states about it.

    Conventions of the embedding:
    - a 2-D numpy array is a row-major [list (list A)]; a [bool] array has
      [A = bool], a [uint8] array has [A = Z] with entries in [0, 255];
    - Python [int] and numpy integer scalars are [Z]; the integers that
      occur are pixel coordinates and extents, far below any wrap-around;
    - Python [float] and [np.float64] are IEEE-754 binary64, the kernel's
      primitive [float];
    - a raised exception is the [Raise] branch of [result];
    - OpenCV and scikit-image entry points whose body is not part of the
      repository are the fields of an interface class. *)

From Stdlib Require Import ZArith List Floats.
From stdpp Require Import base option list gmap.

Open Scope Z_scope.

(** ** Exceptions and the error monad *)

Inductive exn : Set :=
| ValueError
| IndexError
| ZeroDivisionError
| OverflowError
| cv2_error.

Inductive result (A : Type) : Type :=
| Return (a : A)
| Raise (e : exn).

Arguments Return {A} a.
Arguments Raise {A} e.

#[export] Instance result_ret : MRet result := @Return.

#[export] Instance result_bind : MBind result := λ A B k c,
  match c with
  | Return a => k a
  | Raise e => Raise e
  end.

(** [for a in l: s = body(s, a)], stopping at the first exception. *)
Fixpoint for_each {S A : Type} (body : S → A → result S) (s : S) (l : list A)
  : result S :=
  match l with
  | [] => Return s
  | a :: l' => s' ← body s a; for_each body s' l'
  end.

(** ** Python numbers *)

(** Conversion of an integer to a float, rounding to nearest-even (exact
    below [2^53]). *)
Definition Z2F (z : Z) : float := SF2Prim (binary_normalize prec emax z 0 false).

(** [int(f)]: truncation toward zero; infinities and NaN raise. *)
Definition py_int (f : float) : result Z :=
  match Prim2SF f with
  | S754_zero _ => Return 0
  | S754_finite s m e =>
      let a := if 0 <=? e then Z.shiftl (Z.pos m) e else Z.shiftr (Z.pos m) (- e) in
      Return (if s then - a else a)
  | S754_infinity _ => Raise OverflowError
  | S754_nan => Raise ValueError
  end.

(** [i / n] on integers (true division). *)
Definition py_truediv (i n : Z) : result float :=
  if n =? 0 then Raise ZeroDivisionError else Return (Z2F i / Z2F n)%float.

(** [range(n)] *)
Definition py_range (n : Z) : list Z := map Z.of_nat (seq 0 (Z.to_nat n)).

(** [l[1:-1]] *)
Definition py_slice_1_m1 {A : Type} (l : list A) : list A := removelast (tl l).

(** ** numpy arrays *)

Definition np_invert (a : list (list bool)) : list (list bool) := map (map negb) a.

(** Coordinates [(y, x)] of the true entries, in row-major order. *)
Fixpoint where_row (y x : Z) (row : list bool) : list (Z * Z) :=
  match row with
  | [] => []
  | b :: row' => (if b then [(y, x)] else []) ++ where_row y (x + 1) row'
  end.

Fixpoint where_rows (y : Z) (a : list (list bool)) : list (Z * Z) :=
  match a with
  | [] => []
  | row :: a' => where_row y 0 row ++ where_rows (y + 1) a'
  end.

(** [np.where(a)]: the pair (row indices, column indices). *)
Definition np_where (a : list (list bool)) : list Z * list Z :=
  let c := where_rows 0 a in (c.*1, c.*2).

(** [v.max()] and [v.min()]; a zero-size array has no maximum. *)
Definition np_max (v : list Z) : result Z :=
  match v with
  | [] => Raise ValueError
  | z :: v' => Return (foldl Z.max z v')
  end.

Definition np_min (v : list Z) : result Z :=
  match v with
  | [] => Raise ValueError
  | z :: v' => Return (foldl Z.min z v')
  end.

(** [l[i]] with Python's negative indices. *)
Definition py_getitem {A : Type} (l : list A) (i : Z) : result A :=
  let n := Z.of_nat (length l) in
  let j := if i <? 0 then n + i else i in
  if (0 <=? j) && (j <? n) then
    match l !! Z.to_nat j with
    | Some a => Return a
    | None => Raise IndexError
    end
  else Raise IndexError.

(** [a[y, x]] *)
Definition np_getitem2 {A : Type} (a : list (list A)) (y x : Z) : result A :=
  row ← py_getitem a y; py_getitem row x.

(** [(height, width)] *)
Definition np_shape {A : Type} (a : list (list A)) : nat * nat :=
  (length a, length (hd [] a)).

(** [np.zeros_like(a)] for a [uint8] array. *)
Definition np_zeros_like (a : list (list Z)) : list (list Z) := map (map (λ _, 0)) a.

(** [(~a * 255).astype("uint8")] for a [bool] array. *)
Definition np_invert_times_255 (a : list (list bool)) : list (list Z) :=
  map (map (λ b : bool, if negb b then 255 else 0)) a.

(** [a == v] for a [uint8] array. *)
Definition np_equal (a : list (list Z)) (v : Z) : list (list bool) :=
  map (map (λ z, z =? v)) a.

(** [a.astype(bool)] for a [uint8] array. *)
Definition np_astype_bool (a : list (list Z)) : list (list bool) :=
  map (map (λ z, negb (z =? 0))) a.

(** [a + b] for two [bool] arrays of one shape: the elementwise disjunction.
    Operands of different shapes raise (broadcasting of a length-one axis is
    left out). *)
Definition np_add_bool (a b : list (list bool)) : result (list (list bool)) :=
  if bool_decide (length <$> a = length <$> b)
  then Return (zip_with (zip_with orb) a b)
  else Raise ValueError.

(** [np.ones((h, w))], read as a structuring element. *)
Definition np_ones (h w : nat) : list (list bool) := replicate h (replicate w true).

(** [np.pi] *)
Definition np_pi : float := 0x1.921fb54442d18p+1%float.

(** The array a function returns is a [uint8] or a [bool] array. *)
Inductive ndarray : Type :=
| uint8_array (a : list (list Z))
| bool_array (a : list (list bool)).

(** Truth value of every entry, whatever the dtype. *)
Definition truth (a : ndarray) : list (list bool) :=
  match a with
  | uint8_array a => np_astype_bool a
  | bool_array a => a
  end.

(** ** OpenCV and scikit-image *)

Inductive MorphShapes : Set := MORPH_RECT | MORPH_CROSS | MORPH_ELLIPSE.
Inductive MorphTypes : Set := MORPH_ERODE | MORPH_DILATE | MORPH_OPEN | MORPH_CLOSE.

(** The entry points of [cv2] the module calls.  [HoughLinesP] returns [None]
    when it finds no segment, otherwise the segments [(x1, y1, x2, y2)];
    [line] returns the image it has drawn into; a kernel size that OpenCV
    refuses raises [cv2_error]; a morphological transformation keeps the
    shape of its source. *)
Class OpenCV : Type := {
  HoughLinesP :
    list (list Z) → Z → float → Z → Z → Z → option (list (Z * Z * Z * Z));
  line : list (list Z) → Z * Z → Z * Z → Z → Z → list (list Z);
  getStructuringElement : MorphShapes → Z * Z → result (list (list Z));
  morphologyEx :
    list (list Z) → MorphTypes → list (list Z) → Z → result (list (list Z));
  morphologyEx_shape src op kernel iterations dst :
    morphologyEx src op kernel iterations = Return dst →
    length <$> dst = length <$> src
}.

(** The entry points of [skimage.color] and [skimage.filters]. *)
Class Skimage : Type := {
  rgb2gray : list (list (list float)) → list (list float);
  threshold_otsu : list (list float) → float
}.

(** [skimage.morphology.binary_erosion] and [binary_dilation] with a
    structuring element centred at [(h // 2, w // 2)]: a pixel survives the
    erosion when every pixel under the element is set (outside the image
    counts as set), it is set by the dilation when some pixel under the
    reflected element is set (outside the image counts as unset).  The
    result has the shape of the image. *)
Definition selem_offsets (selem : list (list bool)) : list (Z * Z) :=
  let cy := Z.of_nat (length selem) `div` 2 in
  let cx := Z.of_nat (length (hd [] selem)) `div` 2 in
  (λ '(i, j), (i - cy, j - cx)) <$> where_rows 0 selem.

Definition pixel_or (border : bool) (a : list (list bool)) (y x : Z) : bool :=
  if (0 <=? y) && (0 <=? x) then
    match a !! Z.to_nat y with
    | Some row => default border (row !! Z.to_nat x)
    | None => border
    end
  else border.

(** The array of the shape of [a] whose entry at [(y, x)] is [f y x]. *)
Definition np_fromfunction_like {A : Type} (f : Z → Z → bool) (a : list (list A))
  : list (list bool) :=
  imap (λ y row, imap (λ x _, f (Z.of_nat y) (Z.of_nat x)) row) a.

Definition binary_erosion (image selem : list (list bool)) : list (list bool) :=
  np_fromfunction_like
    (λ y x, forallb (λ '(dy, dx), pixel_or true image (y + dy) (x + dx))
                    (selem_offsets selem))
    image.

Definition binary_dilation (image selem : list (list bool)) : list (list bool) :=
  np_fromfunction_like
    (λ y x, existsb (λ '(dy, dx), pixel_or false image (y - dy) (x - dx))
                    (selem_offsets selem))
    image.

(** ** [binarize_image] *)

Inductive threshold_arg : Set :=
| otsu
| threshold_value (t : float).

Definition binarize_image `{Skimage} (image_array : list (list (list float)))
    (threshold : threshold_arg) : list (list bool) :=
  let grayscale := rgb2gray image_array in
  let threshold :=
    match threshold with
    | otsu => threshold_otsu grayscale
    | threshold_value t => t
    end in
  map (map (λ g, (threshold <? g)%float)) grayscale.

(** ** [get_seeds] *)

Definition get_seeds (image_array mask_array exclusion_mask : list (list bool))
  : result (list (Z * Z)) :=
  let '(mask_y_values, mask_x_values) := np_where mask_array in
  y_max ← np_max mask_y_values;
  y_min ← np_min mask_y_values;
  let mask_y_diff := y_max - y_min in
  x_max ← np_max mask_x_values;
  x_min ← np_min mask_x_values;
  let mask_x_diff := x_max - x_min in
  let x_min_limit := (Z2F x_min + Z2F mask_x_diff / Z2F 10)%float in
  let x_max_limit := (Z2F x_max - Z2F mask_x_diff / Z2F 10)%float in
  let y_min_limit := (Z2F y_min + Z2F mask_y_diff / Z2F 10)%float in
  let y_max_limit := (Z2F y_max - Z2F mask_y_diff / Z2F 10)%float in
  let mask_coordinates : gset (Z * Z) :=
    list_to_set (zip mask_y_values mask_x_values) in
  let '(image_y_values, image_x_values) := np_where (np_invert image_array) in
  let image_coordinates : gset (Z * Z) :=
    list_to_set (zip image_y_values image_x_values) in
  let intersection_coordinates := mask_coordinates ∩ image_coordinates in
  for_each
    (λ seed_pixels '(y_coord, x_coord),
       if (Z2F x_coord <? x_min_limit)%float then Return seed_pixels
       else if (x_max_limit <? Z2F x_coord)%float then Return seed_pixels
       else if (Z2F y_coord <? y_min_limit)%float then Return seed_pixels
       else if (y_max_limit <? Z2F y_coord)%float then Return seed_pixels
       else
         excluded ← np_getitem2 exclusion_mask y_coord x_coord;
         if excluded : bool then Return seed_pixels
         else Return (seed_pixels ++ [(x_coord, y_coord)]))
    [] (elements intersection_coordinates).

(** ** [find_equidistant_points] *)

Definition find_equidistant_points (x1 y1 x2 y2 : Z) (num_points : Z)
  : result (list (float * float)) :=
  for_each
    (λ points i,
       t ← py_truediv i num_points;
       let x := (Z2F x1 * (Z2F 1 - t) + Z2F x2 * t)%float in
       let y := (Z2F y1 * (Z2F 1 - t) + Z2F y2 * t)%float in
       Return (points ++ [(x, y)]))
    [] (py_range (num_points + 1)).

(** ** [detect_horizontal_and_vertical_lines] *)

Definition detect_horizontal_and_vertical_lines `{OpenCV}
    (image : list (list bool)) (max_depiction_size : Z * Z)
  : result (list (list bool)) :=
  let binarised_im := np_invert_times_255 image in
  let '(structure_height, structure_width) := max_depiction_size in
  horizontal_kernel ← getStructuringElement MORPH_RECT (structure_width, 1);
  horizontal_mask ← morphologyEx binarised_im MORPH_OPEN horizontal_kernel 2;
  let horizontal_mask := np_equal horizontal_mask 255 in
  vertical_kernel ← getStructuringElement MORPH_RECT (1, structure_height);
  vertical_mask ← morphologyEx binarised_im MORPH_OPEN vertical_kernel 2;
  let vertical_mask := np_equal vertical_mask 255 in
  np_add_bool horizontal_mask vertical_mask.

(** ** [detect_lines] *)

(** The inner loop: [for x, y in points: if mask[int(y), int(x)]: ... break]. *)
Fixpoint points_in_structure (segmentation_mask : list (list bool))
    (points : list (float * float)) : result bool :=
  match points with
  | [] => Return false
  | (x, y) :: points' =>
      iy ← py_int y;
      ix ← py_int x;
      inside ← np_getitem2 segmentation_mask iy ix;
      if inside : bool then Return true
      else points_in_structure segmentation_mask points'
  end.

(** The call of the line transform, with its arguments. *)
Definition hough_lines `{OpenCV} (image : list (list Z)) (max_depiction_size : Z * Z)
  : result (option (list (Z * Z * Z * Z))) :=
  let '(h, w) := max_depiction_size in
  minLineLength ← py_int (Z2F (Z.max h w) / Z2F 4)%float;
  Return (HoughLinesP image 1 (np_pi / Z2F 180)%float 5 minLineLength 10).

Definition detect_lines `{OpenCV} (image : list (list bool))
    (max_depiction_size : Z * Z) (segmentation_mask : list (list bool))
  : result ndarray :=
  let image := np_invert_times_255 image in
  lines ← hough_lines image max_depiction_size;
  let exclusion_mask := np_zeros_like image in
  match lines with
  | None => Return (uint8_array exclusion_mask)
  | Some lines =>
      exclusion_mask ←
        for_each
          (λ exclusion_mask '(x1, y1, x2, y2),
             points ← find_equidistant_points x1 y1 x2 y2 7;
             in_structure ← points_in_structure segmentation_mask (py_slice_1_m1 points);
             if in_structure : bool then Return exclusion_mask
             else Return (line exclusion_mask (x1, y1) (x2, y2) 255 3))
          exclusion_mask lines;
      Return (bool_array (np_astype_bool exclusion_mask))
  end.

(** ** [complete_structure_mask] *)

Definition complete_structure_mask (image : list (list bool)) : list (list bool) :=
  binary_dilation (binary_erosion image (np_ones 5 5)) (np_ones 5 5).

(** ** [detect_chemical_structures] *)

Definition detect_chemical_structures `{OpenCV} `{Skimage}
    (image : list (list (list float))) : result (list (list bool) * ndarray) :=
  let binarized_image := binarize_image image otsu in
  let structure_mask := complete_structure_mask binarized_image in
  let max_depiction_size :=
    (Z.of_nat (length image) `div` 10, Z.of_nat (length (hd [] image)) `div` 10) in
  exclusion_mask ←
    detect_lines (np_invert structure_mask) max_depiction_size structure_mask;
  Return (structure_mask, exclusion_mask).

(** * Notions of the specification *)

(** The pixel [(y, x)] of [a] is set. *)
Definition is_set (a : list (list bool)) (y x : Z) : Prop :=
  0 ≤ y ∧ 0 ≤ x ∧ np_getitem2 a y x = Return true.

(** The bounding box of the set pixels of a mask: each bound is attained and
    every set pixel lies within the bounds. *)
Definition bounding_box (mask : list (list bool)) (y_min y_max x_min x_max : Z)
  : Prop :=
  (∃ x, is_set mask y_min x) ∧ (∃ x, is_set mask y_max x) ∧
  (∃ y, is_set mask y x_min) ∧ (∃ y, is_set mask y x_max) ∧
  ∀ y x, is_set mask y x → y_min ≤ y ≤ y_max ∧ x_min ≤ x ≤ x_max.

(** The inner 80% of a bounding box: a tenth of the extent is cut off on
    each side, in floating point as the limits are computed. *)
Definition inner_window (y_min y_max x_min x_max : Z) (y x : Z) : bool :=
  negb (Z2F x <? Z2F x_min + Z2F (x_max - x_min) / Z2F 10)%float
  && negb (Z2F x_max - Z2F (x_max - x_min) / Z2F 10 <? Z2F x)%float
  && negb (Z2F y <? Z2F y_min + Z2F (y_max - y_min) / Z2F 10)%float
  && negb (Z2F y_max - Z2F (y_max - y_min) / Z2F 10 <? Z2F y)%float.

(** The interior sample points of a segment: interpolation parameter
    [t = i / 7] for [i = 1, ..., 6]. *)
Definition interior_points (segment : Z * Z * Z * Z) : list (float * float) :=
  let '(x1, y1, x2, y2) := segment in
  (λ i, let t := (Z2F i / Z2F 7)%float in
        ((Z2F x1 * (Z2F 1 - t) + Z2F x2 * t)%float,
         (Z2F y1 * (Z2F 1 - t) + Z2F y2 * t)%float))
  <$> [1; 2; 3; 4; 5; 6].

(** The test of one sample point against the candidate mask. *)
Definition sample_inside (segmentation_mask : list (list bool))
    (point : float * float) : result bool :=
  iy ← py_int point.2;
  ix ← py_int point.1;
  np_getitem2 segmentation_mask iy ix.

(** What the loop of [detect_lines] does with one segment, the sample points
    written out. *)
Definition classify_segment `{OpenCV} (segmentation_mask : list (list bool))
    (exclusion_mask : list (list Z)) (segment : Z * Z * Z * Z)
  : result (list (list Z)) :=
  let '(x1, y1, x2, y2) := segment in
  in_structure ← points_in_structure segmentation_mask (interior_points segment);
  if in_structure : bool then Return exclusion_mask
  else Return (line exclusion_mask (x1, y1) (x2, y2) 255 3).

(** Some sample point of the segment falls inside the candidate mask. *)
Definition any_sample_inside (segmentation_mask : list (list bool))
    (segment : Z * Z * Z * Z) : bool :=
  existsb (λ point, match sample_inside segmentation_mask point with
                    | Return inside => inside
                    | Raise _ => false
                    end)
          (interior_points segment).

(** The exclusion mask as the specification describes it: a segment with a
    sample inside the candidate mask adds nothing, any other segment is drawn
    in full, 3 pixels thick. *)
Definition noise_segments_drawn `{OpenCV} (segmentation_mask : list (list bool))
    (lines : list (Z * Z * Z * Z)) (blank : list (list Z)) : list (list Z) :=
  foldl (λ exclusion_mask '(x1, y1, x2, y2),
           if any_sample_inside segmentation_mask (x1, y1, x2, y2)
           then exclusion_mask
           else line exclusion_mask (x1, y1) (x2, y2) 255 3)
        blank lines.

(** A stand-in for OpenCV on which examples can be evaluated: the line
    transform answers with a given list of segments, drawing a line marks its
    two end points, a rectangular kernel is all ones and a morphological
    transformation leaves its source as it is. *)
Definition set_pixel (image : list (list Z)) (point : Z * Z) (color : Z)
  : list (list Z) :=
  let '(x, y) := point in
  alter (λ row, <[Z.to_nat x := color]> row) (Z.to_nat y) image.

Program Definition stand_in_cv (lines : option (list (Z * Z * Z * Z)))
  : OpenCV := {|
  HoughLinesP _ _ _ _ _ _ := lines;
  line image pt1 pt2 color _ := set_pixel (set_pixel image pt1 color) pt2 color;
  getStructuringElement _ ksize :=
    if (0 <? ksize.1) && (0 <? ksize.2)
    then Return (replicate (Z.to_nat ksize.2) (replicate (Z.to_nat ksize.1) 1))
    else Raise cv2_error;
  morphologyEx src _ _ _ := Return src
|}.
Next Obligation. intros _ src _ _ _ dst [= ->]. reflexivity. Qed.

(** The position an index denotes in a sequence of length [n], if any. *)
Definition py_index (n : nat) (i : Z) : option nat :=
  let j := if i <? 0 then Z.of_nat n + i else i in
  if (0 <=? j) && (j <? Z.of_nat n) then Some (Z.to_nat j) else None.

(** The inputs of the specification's seed example: a filled 100×100 region,
    an image that is white but for one ink pixel, and nothing excluded.  In
    the image [true] is a white pixel, [false] is ink. *)
Definition square100 : list (list bool) := replicate 100 (replicate 100 true).
Definition no_exclusion : list (list bool) := replicate 100 (replicate 100 false).
Definition ink_at (y x : nat) : list (list bool) :=
  <[y := <[x := false]> (replicate 100 true)]> (replicate 100 (replicate 100 true)).

(** A pixel of the array: the coordinates are those of an entry. *)
Definition in_image {A : Type} (a : list (list A)) (y x : Z) : Prop :=
  0 ≤ y ∧ 0 ≤ x ∧ ∃ c, np_getitem2 a y x = Return c.

(** What the loop of [get_seeds] decides for one coordinate of the
    intersection: the seed it appends, if any. *)
Definition seed_keep (exclusion_mask : list (list bool))
    (y_min y_max x_min x_max : Z) (coordinate : Z * Z) : result (option (Z * Z)) :=
  let '(y_coord, x_coord) := coordinate in
  if inner_window y_min y_max x_min x_max y_coord x_coord then
    excluded ← np_getitem2 exclusion_mask y_coord x_coord;
    Return (if excluded : bool then None else Some (x_coord, y_coord))
  else Return None.

(** The point of [find_equidistant_points] at division [i] of [n]. *)
Definition point_at (x1 y1 x2 y2 n i : Z) : float * float :=
  let t := (Z2F i / Z2F n)%float in
  ((Z2F x1 * (Z2F 1 - t) + Z2F x2 * t)%float,
   (Z2F y1 * (Z2F 1 - t) + Z2F y2 * t)%float).

(** The 5×5 window centred at [(qy, qx)] holds no unset pixel of the image
    (what lies outside the image does not count). *)
Definition window_set (image : list (list bool)) (qy qx : Z) : Prop :=
  ∀ dy dx, -2 ≤ dy ≤ 2 → -2 ≤ dx ≤ 2 →
    in_image image (qy + dy) (qx + dx) → is_set image (qy + dy) (qx + dx).

(** A stand-in for scikit-image on which examples can be evaluated: the
    grey value of a pixel is its first channel and the threshold is one
    half. *)
Definition stand_in_skimage : Skimage := {|
  rgb2gray := map (map (λ pixel, hd 0%float pixel));
  threshold_otsu _ := 0.5%float
|}.

(** * Properties *)

(** C9: [find_equidistant_points] on the endpoints (0,0) and (10,0) with 5
    divisions yields exactly (0,0), (2,0), (4,0), (6,0), (8,0), (10,0), in
    this order. *)
Theorem find_equidistant_points_0_10_5 :
  find_equidistant_points 0 0 10 0 5
  = Return [(0, 0); (2, 0); (4, 0); (6, 0); (8, 0); (10, 0)]%float.
Proof. vm_compute. reflexivity. Qed.

Lemma bind_Return {A B} (a : A) (k : A → result B) : (Return a ≫= k) = k a.
Proof. reflexivity. Qed.

Lemma bind_inv {A B} (c : result A) (k : A → result B) (b : B) :
  (c ≫= k) = Return b → ∃ a, c = Return a ∧ k a = Return b.
Proof. destruct c as [a|e]; cbn; [eauto | discriminate]. Qed.

Lemma where_row_elem y x0 row yy xx :
  (yy, xx) ∈ where_row y x0 row ↔
  yy = y ∧ x0 ≤ xx ∧ row !! Z.to_nat (xx - x0) = Some true.
Proof.
  revert x0. induction row as [|b row IH]; intros x0; cbn [where_row].
  - rewrite elem_of_nil, lookup_nil. split; [done | by intros (_ & _ & ?)].
  - rewrite elem_of_app, IH. split.
    + intros [Hb | (-> & Hle & Hrow)].
      * destruct b; [|by apply elem_of_nil in Hb].
        apply list_elem_of_singleton in Hb. injection Hb as -> ->.
        rewrite Z.sub_diag. split_and!; [done | lia | done].
      * split_and!; [done | lia |].
        replace (Z.to_nat (xx - x0)) with (S (Z.to_nat (xx - (x0 + 1)))) by lia.
        done.
    + intros (-> & Hle & Hrow).
      destruct (decide (xx = x0)) as [-> | Hne].
      * left. rewrite Z.sub_diag in Hrow. cbn in Hrow. injection Hrow as ->.
        apply list_elem_of_singleton. done.
      * right. split_and!; [done | lia |].
        replace (Z.to_nat (xx - x0)) with (S (Z.to_nat (xx - (x0 + 1)))) in Hrow by lia.
        done.
Qed.

Lemma where_rows_elem y0 a yy xx :
  (yy, xx) ∈ where_rows y0 a ↔
  y0 ≤ yy ∧ 0 ≤ xx ∧
  ∃ row, a !! Z.to_nat (yy - y0) = Some row ∧ row !! Z.to_nat xx = Some true.
Proof.
  revert y0. induction a as [|row a IH]; intros y0; cbn [where_rows].
  - rewrite elem_of_nil. setoid_rewrite lookup_nil.
    split; [done | by intros (_ & _ & ? & ? & _)].
  - rewrite elem_of_app, where_row_elem, IH, Z.sub_0_r. split.
    + intros [(-> & Hx & Hrow) | (Hy & Hx & row' & Ha & Hrow)].
      * split_and!; [lia | done |]. exists row. rewrite Z.sub_diag. done.
      * split_and!; [lia | done |]. exists row'.
        replace (Z.to_nat (yy - y0)) with (S (Z.to_nat (yy - (y0 + 1)))) by lia.
        done.
    + intros (Hy & Hx & row' & Ha & Hrow).
      destruct (decide (yy = y0)) as [-> | Hne].
      * left. rewrite Z.sub_diag in Ha. cbn in Ha. injection Ha as ->. done.
      * right. split_and!; [lia | done |]. exists row'.
        replace (Z.to_nat (yy - y0)) with (S (Z.to_nat (yy - (y0 + 1)))) in Ha by lia.
        done.
Qed.

Lemma foldl_max_spec v z :
  (foldl Z.max z v = z ∨ foldl Z.max z v ∈ v) ∧
  z ≤ foldl Z.max z v ∧ ∀ u, u ∈ v → u ≤ foldl Z.max z v.
Proof.
  revert z. induction v as [|a v IH]; intros z; cbn [foldl].
  - split_and!; [by left | lia | by intros u ?%elem_of_nil].
  - destruct (IH (Z.max z a)) as (Hin & Hle & Hub). split_and!.
    + destruct Hin as [-> | Hin].
      * destruct (Z.max_spec z a) as [[_ ->] | [_ ->]]; [right; left | by left].
      * right. by right.
    + lia.
    + intros u [-> | Hu]%elem_of_cons; [lia | by apply Hub].
Qed.

Lemma foldl_min_spec v z :
  (foldl Z.min z v = z ∨ foldl Z.min z v ∈ v) ∧
  foldl Z.min z v ≤ z ∧ ∀ u, u ∈ v → foldl Z.min z v ≤ u.
Proof.
  revert z. induction v as [|a v IH]; intros z; cbn [foldl].
  - split_and!; [by left | lia | by intros u ?%elem_of_nil].
  - destruct (IH (Z.min z a)) as (Hin & Hle & Hlb). split_and!.
    + destruct Hin as [-> | Hin].
      * destruct (Z.min_spec z a) as [[_ ->] | [_ ->]]; [by left | right; left].
      * right. by right.
    + lia.
    + intros u [-> | Hu]%elem_of_cons; [lia | by apply Hlb].
Qed.

Lemma np_max_spec v m :
  np_max v = Return m → m ∈ v ∧ ∀ u, u ∈ v → u ≤ m.
Proof.
  destruct v as [|z v]; cbn; [discriminate|]. intros [= <-].
  destruct (foldl_max_spec v z) as (Hin & Hle & Hub). split.
  - destruct Hin as [-> | Hin]; [left | by right].
  - intros u [-> | Hu]%elem_of_cons; [done | by apply Hub].
Qed.

Lemma np_min_spec v m :
  np_min v = Return m → m ∈ v ∧ ∀ u, u ∈ v → m ≤ u.
Proof.
  destruct v as [|z v]; cbn; [discriminate|]. intros [= <-].
  destruct (foldl_min_spec v z) as (Hin & Hle & Hlb). split.
  - destruct Hin as [-> | Hin]; [left | by right].
  - intros u [-> | Hu]%elem_of_cons; [done | by apply Hlb].
Qed.

Lemma np_max_is_Return v : v ≠ [] → ∃ m, np_max v = Return m.
Proof. destruct v; [done | cbn; eauto]. Qed.

Lemma np_min_is_Return v : v ≠ [] → ∃ m, np_min v = Return m.
Proof. destruct v; [done | cbn; eauto]. Qed.

(** A loop that appends to its accumulator the elements a test selects. *)
Lemma for_each_select {A B : Type} (body : list B → A → result (list B))
    (keep : A → result (option B)) :
  (∀ acc a, body acc a = (o ← keep a; Return (from_option (λ b, acc ++ [b]) acc o))) →
  ∀ l acc r, for_each body acc l = Return r →
  ∀ b, b ∈ r ↔ b ∈ acc ∨ ∃ a, a ∈ l ∧ keep a = Return (Some b).
Proof.
  intros Hbody. induction l as [|a l IH]; intros acc r; cbn [for_each].
  - intros [= <-] b. split; [by left|]. intros [? | (a & []%elem_of_nil & _)]. done.
  - rewrite Hbody. destruct (keep a) as [o|e] eqn:Hk; cbn; [|discriminate].
    intros Hr b. rewrite (IH _ _ Hr). destruct o as [b'|]; cbn.
    + rewrite elem_of_app, list_elem_of_singleton. split.
      * intros [[? | ->] | (a' & Ha' & Hk')]; [by left | |].
        -- right. exists a. split; [left | done].
        -- right. exists a'. split; [by right | done].
      * intros [? | (a' & [-> | Ha']%elem_of_cons & Hk')]; [by left; left | |].
        -- rewrite Hk in Hk'. injection Hk' as ->. left. by right.
        -- right. eauto.
    + split.
      * intros [? | (a' & Ha' & Hk')]; [by left|]. right. exists a'. split; [by right | done].
      * intros [? | (a' & [-> | Ha']%elem_of_cons & Hk')]; [by left | |].
        -- rewrite Hk in Hk'. discriminate.
        -- right. eauto.
Qed.

Lemma for_each_select_total {A B : Type} (body : list B → A → result (list B))
    (keep : A → result (option B)) :
  (∀ acc a, body acc a = (o ← keep a; Return (from_option (λ b, acc ++ [b]) acc o))) →
  ∀ l acc, (∀ a, a ∈ l → ∃ o, keep a = Return o) →
  ∃ r, for_each body acc l = Return r.
Proof.
  intros Hbody. induction l as [|a l IH]; intros acc Hl; cbn [for_each]; [eauto|].
  rewrite Hbody. destruct (Hl a) as [o ->]; [left|]. cbn.
  apply IH. intros a' Ha'. apply Hl. by right.
Qed.

Lemma py_getitem_nonneg {A : Type} (l : list A) (i : Z) (a : A) :
  0 ≤ i → py_getitem l i = Return a ↔ l !! Z.to_nat i = Some a.
Proof.
  intros Hi. unfold py_getitem. cbn zeta.
  destruct (Z.ltb_spec i 0) as [?|_]; [lia|].
  destruct (Z.leb_spec 0 i) as [_|?]; [|lia].
  destruct (Z.ltb_spec i (Z.of_nat (length l))) as [Hlt|Hge]; cbn.
  - destruct (l !! Z.to_nat i) as [a'|] eqn:Hl; [|split; discriminate].
    split; intros [= ->]; done.
  - split; [discriminate|]. intros Hl%lookup_lt_Some. lia.
Qed.

Lemma is_set_where_rows (a : list (list bool)) (y x : Z) :
  is_set a y x ↔ (y, x) ∈ where_rows 0 a.
Proof.
  rewrite where_rows_elem, Z.sub_0_r. unfold is_set, np_getitem2. split.
  - intros (Hy & Hx & Hget). split_and!; [done..|].
    destruct (py_getitem a y) as [row|] eqn:Hrow; cbn in Hget; [|discriminate].
    exists row. split; [by apply py_getitem_nonneg in Hrow | by apply py_getitem_nonneg in Hget].
  - intros (Hy & Hx & row & Hrow & Hget). split_and!; [done..|].
    apply py_getitem_nonneg in Hrow as ->; [|done]. cbn.
    by apply py_getitem_nonneg.
Qed.

Lemma np_invert_getitem2 (a : list (list bool)) (y x : Z) (b : bool) :
  0 ≤ y → 0 ≤ x →
  np_getitem2 (np_invert a) y x = Return b ↔ np_getitem2 a y x = Return (negb b).
Proof.
  intros Hy Hx. unfold np_getitem2, np_invert.
  destruct (py_getitem a y) as [row|e] eqn:Hrow.
  - apply py_getitem_nonneg in Hrow; [|done].
    assert (py_getitem (map (map negb) a) y = Return (map negb row)) as ->.
    { apply py_getitem_nonneg; [done|]. by rewrite list_lookup_fmap, Hrow. }
    cbn. rewrite !py_getitem_nonneg by done. rewrite list_lookup_fmap.
    destruct (row !! Z.to_nat x) as [c|]; cbn; [|split; discriminate].
    split; [intros [= <-] | intros [= ->]]; by rewrite negb_involutive.
  - destruct (py_getitem (map (map negb) a) y) as [row'|e'] eqn:Hrow'.
    + apply py_getitem_nonneg in Hrow'; [|done].
      rewrite list_lookup_fmap in Hrow'.
      destruct (a !! Z.to_nat y) as [row|] eqn:Ha; [|discriminate].
      apply py_getitem_nonneg in Ha; [|done]. congruence.
    + cbn. split; discriminate.
Qed.

(** What [get_seeds] returns: the swapped coordinates of the pixels set in the
    mask, unset in the image, inside the inner window of the mask's bounding
    box and unset in the exclusion mask. *)
Lemma get_seeds_inv (image mask excl : list (list bool)) (seeds : list (Z * Z)) :
  get_seeds image mask excl = Return seeds →
  ∃ y_min y_max x_min x_max,
    bounding_box mask y_min y_max x_min x_max ∧
    ∀ x y, (x, y) ∈ seeds ↔
      is_set mask y x ∧ np_getitem2 image y x = Return false ∧
      inner_window y_min y_max x_min x_max y x = true ∧
      np_getitem2 excl y x = Return false.
Proof.
  unfold get_seeds, np_where. cbn zeta. rewrite !zip_fst_snd.
  intros (y_max & Hymax & H)%bind_inv. apply bind_inv in H as (y_min & Hymin & H).
  apply bind_inv in H as (x_max & Hxmax & H). apply bind_inv in H as (x_min & Hxmin & H).
  exists y_min, y_max, x_min, x_max. split.
  - apply np_max_spec in Hymax as [Hymax Hyub]. apply np_min_spec in Hymin as [Hymin Hylb].
    apply np_max_spec in Hxmax as [Hxmax Hxub]. apply np_min_spec in Hxmin as [Hxmin Hxlb].
    apply list_elem_of_fmap in Hymax as ([? x1] & -> & Hymax).
    apply list_elem_of_fmap in Hymin as ([? x2] & -> & Hymin).
    apply list_elem_of_fmap in Hxmax as ([y1 ?] & -> & Hxmax).
    apply list_elem_of_fmap in Hxmin as ([y2 ?] & -> & Hxmin).
    cbn [fst snd] in *. split_and!.
    + exists x2. by apply is_set_where_rows.
    + exists x1. by apply is_set_where_rows.
    + exists y2. by apply is_set_where_rows.
    + exists y1. by apply is_set_where_rows.
    + intros y x Hset%is_set_where_rows.
      pose proof (Hyub y) as ?. pose proof (Hylb y) as ?.
      pose proof (Hxub x) as ?. pose proof (Hxlb x) as ?.
      assert (y ∈ (where_rows 0 mask).*1) by (apply list_elem_of_fmap; by exists (y, x)).
      assert (x ∈ (where_rows 0 mask).*2) by (apply list_elem_of_fmap; by exists (y, x)).
      naive_solver lia.
  - intros x y.
    set (keep := λ '(y_coord, x_coord),
         if inner_window y_min y_max x_min x_max y_coord x_coord then
           excluded ← np_getitem2 excl y_coord x_coord;
           Return (if excluded : bool then None else Some (x_coord, y_coord))
         else Return None).
    lazymatch type of H with
    | for_each ?body _ _ = _ =>
        assert (∀ acc a, body acc a
                  = (o ← keep a; Return (from_option (λ b, acc ++ [b]) acc o)))
          as Hbody
    end.
    { intros acc [y' x']. unfold keep, inner_window.
      destruct (_ <? _)%float; cbn; [done|].
      destruct (_ <? _)%float; cbn; [done|].
      destruct (_ <? _)%float; cbn; [done|].
      destruct (_ <? _)%float; cbn; [done|].
      destruct (np_getitem2 excl y' x') as [[]|]; done. }
    rewrite (for_each_select _ _ Hbody _ _ _ H). unfold keep. split.
    + intros [[]%elem_of_nil | ([y' x'] & Hin & Hkeep)].
      apply elem_of_elements, elem_of_intersection in Hin as [Hm Hi].
      apply elem_of_list_to_set in Hm, Hi.
      destruct (inner_window _ _ _ _ y' x') eqn:Hw; [|discriminate].
      destruct (np_getitem2 excl y' x') as [[]|] eqn:He; cbn in Hkeep; try discriminate.
      injection Hkeep as -> ->.
      apply is_set_where_rows in Hm, Hi. destruct Hi as (Hy & Hx & Hi).
      apply np_invert_getitem2 in Hi; [|done..]. done.
    + intros (Hm & Hi & Hw & He). right. exists (y, x). split.
      * apply elem_of_elements, elem_of_intersection.
        rewrite !elem_of_list_to_set, <-!is_set_where_rows. split; [done|].
        destruct Hm as (Hy & Hx & _). split_and!; [done..|].
        by apply np_invert_getitem2.
      * by rewrite Hw, He.
Qed.

Lemma get_seeds_total (image mask excl : list (list bool)) :
  (∃ y x, is_set mask y x) →
  (∀ y x, is_set mask y x → ∃ b, np_getitem2 excl y x = Return b) →
  ∃ seeds, get_seeds image mask excl = Return seeds.
Proof.
  intros (y0 & x0 & Hset) Hexcl. unfold get_seeds, np_where. cbn zeta.
  rewrite !zip_fst_snd. apply is_set_where_rows in Hset.
  assert ((where_rows 0 mask).*1 ≠ []) as Hy by (intros Hnil%fmap_nil_inv; by rewrite Hnil in Hset; apply elem_of_nil in Hset).
  assert ((where_rows 0 mask).*2 ≠ []) as Hx by (intros Hnil%fmap_nil_inv; by rewrite Hnil in Hset; apply elem_of_nil in Hset).
  destruct (np_max_is_Return _ Hy) as [y_max ->], (np_min_is_Return _ Hy) as [y_min ->].
  destruct (np_max_is_Return _ Hx) as [x_max ->], (np_min_is_Return _ Hx) as [x_min ->].
  cbn.
  apply for_each_select_total with
    (keep := λ '(y_coord, x_coord),
       if inner_window y_min y_max x_min x_max y_coord x_coord then
         excluded ← np_getitem2 excl y_coord x_coord;
         Return (if excluded : bool then None else Some (x_coord, y_coord))
       else Return None).
  - intros acc [y' x']. unfold inner_window.
    destruct (_ <? _)%float; cbn; [done|].
    destruct (_ <? _)%float; cbn; [done|].
    destruct (_ <? _)%float; cbn; [done|].
    destruct (_ <? _)%float; cbn; [done|].
    destruct (np_getitem2 excl y' x') as [[]|]; done.
  - intros [y' x'] Hin. destruct (inner_window _ _ _ _ y' x'); [|eauto].
    apply elem_of_elements, elem_of_intersection in Hin as [Hm _].
    apply elem_of_list_to_set, is_set_where_rows, Hexcl in Hm as [b ->]. cbn. eauto.
Qed.

(** The loop of [get_seeds] over a region that holds a single ink pixel. *)
Lemma intersection_single_ink (mask : list (list bool)) (y x : Z) :
  is_set mask y x →
  (list_to_set (where_rows 0 mask) ∩ list_to_set [(y, x)] : gset (Z * Z)) = {[ (y, x) ]}.
Proof.
  intros Hset%is_set_where_rows. apply set_eq. intros p.
  rewrite elem_of_intersection, !elem_of_list_to_set, list_elem_of_singleton, elem_of_singleton.
  split; [by intros [_ ->] | by intros ->].
Qed.

Lemma get_seeds_centre_ink :
  get_seeds (ink_at 50 50) square100 no_exclusion = Return [(50, 50)].
Proof.
  unfold get_seeds, np_where. cbn zeta. rewrite !zip_fst_snd.
  replace (where_rows 0 (np_invert (ink_at 50 50))) with [(50, 50)]
    by (vm_compute; reflexivity).
  rewrite intersection_single_ink, elements_singleton
    by (vm_compute; split_and!; [discriminate.. | reflexivity]).
  vm_compute. reflexivity.
Qed.

Lemma get_seeds_corner_ink :
  get_seeds (ink_at 0 0) square100 no_exclusion = Return [].
Proof.
  unfold get_seeds, np_where. cbn zeta. rewrite !zip_fst_snd.
  replace (where_rows 0 (np_invert (ink_at 0 0))) with [(0, 0)]
    by (vm_compute; reflexivity).
  rewrite intersection_single_ink, elements_singleton
    by (vm_compute; split_and!; [discriminate.. | reflexivity]).
  vm_compute. reflexivity.
Qed.

(** ** The seed extractor *)

(** C1 as the specification states it fails: on a region mask without a set
    pixel [get_seeds] does not return the empty list. *)
Lemma get_seeds_empty_region_not_nil :
  ¬ (∀ image mask excl : list (list bool),
       (∀ y x, ¬ is_set mask y x) → get_seeds image mask excl = Return []).
Proof.
  intros Hclaim.
  assert (get_seeds [[true]] [[false]] [[false]] = Return []) as Hnil.
  { apply Hclaim. intros y x Hset%is_set_where_rows. by apply elem_of_nil in Hset. }
  vm_compute in Hnil. discriminate Hnil.
Qed.

(** C1, amended: on a region-of-interest mask without a set pixel [get_seeds]
    raises [ValueError] (the maximum of an empty coordinate array), whatever
    the image and the exclusion mask; no seed list is returned. *)
Theorem get_seeds_empty_region (image mask excl : list (list bool)) :
  (∀ y x, ¬ is_set mask y x) →
  get_seeds image mask excl = Raise ValueError.
Proof.
  intros Hempty. unfold get_seeds, np_where. cbn zeta.
  destruct (where_rows 0 mask) as [|[y x] c] eqn:Hc; [reflexivity|].
  destruct (Hempty y x). apply is_set_where_rows. rewrite Hc. left.
Qed.

Lemma get_seeds_empty_region_witness :
  get_seeds [[true; false]] [[false; false]] [[false; false]] = Raise ValueError.
Proof.
  apply (get_seeds_empty_region [[true; false]] [[false; false]] [[false; false]]).
  intros y x Hset. apply is_set_where_rows in Hset. vm_compute in Hset.
  inversion Hset.
Defined.

(** C3 as the specification states it fails: a returned seed need not be a
    set pixel of the image that is passed in. *)
Lemma get_seeds_image_not_set :
  ¬ (∀ (image mask excl : list (list bool)) (seeds : list (Z * Z)) (x y : Z),
       get_seeds image mask excl = Return seeds → (x, y) ∈ seeds →
       np_getitem2 image y x = Return true ∧ np_getitem2 mask y x = Return true).
Proof.
  intros Hclaim.
  destruct (Hclaim [[false]] [[true]] [[false]] [(0, 0)] 0 0) as [Himage _].
  - vm_compute. reflexivity.
  - left.
  - vm_compute in Himage. discriminate Himage.
Qed.

(** C3, amended: the image passed to [get_seeds] has [true] for a white
    (background) pixel, and the ink pixels are those of its inversion; every
    returned seed [(x, y)] is a pixel at which the image is [false] (ink) and
    the region-of-interest mask is [true]. *)
Theorem get_seeds_ink_and_region (image mask excl : list (list bool))
    (seeds : list (Z * Z)) (x y : Z) :
  get_seeds image mask excl = Return seeds → (x, y) ∈ seeds →
  np_getitem2 image y x = Return false ∧ np_getitem2 mask y x = Return true.
Proof.
  intros (y_min & y_max & x_min & x_max & _ & Hseeds)%get_seeds_inv Hin.
  apply Hseeds in Hin as ((_ & _ & Hmask) & Himage & _). done.
Qed.

Lemma get_seeds_ink_and_region_witness :
  np_getitem2 [[false]] 0 0 = Return false ∧ np_getitem2 [[true]] 0 0 = Return true.
Proof.
  apply (get_seeds_ink_and_region [[false]] [[true]] [[false]] [(0, 0)] 0 0).
  - vm_compute. reflexivity.
  - left.
Defined.

(** C6: when the region-of-interest mask has a set pixel (and the exclusion
    mask can be read at the pixels of the region), [get_seeds] returns, every
    seed lies in the inner window of the mask's bounding box, a tenth of its
    width and height cut off on each side, and no seed is set in the
    exclusion mask.  For the filled 100×100 square and a single ink pixel at
    its centre the result is that coordinate alone; an ink pixel at the corner
    of the square is left out. *)
Theorem get_seeds_inner_window :
  (∀ image mask excl : list (list bool),
     (∃ y x, is_set mask y x) →
     (∀ y x, is_set mask y x → ∃ b, np_getitem2 excl y x = Return b) →
     ∃ seeds y_min y_max x_min x_max,
       get_seeds image mask excl = Return seeds ∧
       bounding_box mask y_min y_max x_min x_max ∧
       ∀ x y, (x, y) ∈ seeds →
         inner_window y_min y_max x_min x_max y x = true ∧
         np_getitem2 excl y x = Return false) ∧
  get_seeds (ink_at 50 50) square100 no_exclusion = Return [(50, 50)] ∧
  get_seeds (ink_at 0 0) square100 no_exclusion = Return [].
Proof.
  split_and!; [|apply get_seeds_centre_ink | apply get_seeds_corner_ink].
  intros image mask excl Hne Hexcl.
  destruct (get_seeds_total image mask excl Hne Hexcl) as [seeds Hseeds].
  destruct (get_seeds_inv _ _ _ _ Hseeds) as (y_min & y_max & x_min & x_max & Hbox & Hin).
  exists seeds, y_min, y_max, x_min, x_max. split_and!; [done..|].
  intros x y (_ & _ & Hw & He)%Hin. done.
Qed.

Lemma get_seeds_inner_window_witness :
  ∃ seeds y_min y_max x_min x_max,
    get_seeds [[true; false; true]] [[true; true; true]] [[false; false; false]]
      = Return seeds ∧
    bounding_box [[true; true; true]] y_min y_max x_min x_max ∧
    ∀ x y, (x, y) ∈ seeds →
      inner_window y_min y_max x_min x_max y x = true ∧
      np_getitem2 [[false; false; false]] y x = Return false.
Proof.
  apply (proj1 get_seeds_inner_window
           [[true; false; true]] [[true; true; true]] [[false; false; false]]).
  - exists 0, 0. vm_compute. split_and!; [discriminate.. | reflexivity].
  - intros y x Hset. apply is_set_where_rows in Hset. vm_compute in Hset.
    repeat (apply elem_of_cons in Hset as [[= -> ->] | Hset];
            [eexists; vm_compute; reflexivity|]).
    inversion Hset.
Defined.

(** ** The line detector *)

Lemma for_each_ext {S A : Type} (f g : S → A → result S) (l : list A) (s : S) :
  (∀ s a, a ∈ l → f s a = g s a) → for_each f s l = for_each g s l.
Proof.
  revert s. induction l as [|a l IH]; intros s Hfg; cbn [for_each]; [done|].
  rewrite Hfg by left. destruct (g s a) as [s'|e]; cbn; [|done].
  apply IH. intros s'' a' Ha'. apply Hfg. by right.
Qed.

(** The points between the first and the last of the eight that seven
    divisions produce are the six interior points. *)
Lemma find_equidistant_points_interior (x1 y1 x2 y2 : Z) :
  ∃ points, find_equidistant_points x1 y1 x2 y2 7 = Return points ∧
            py_slice_1_m1 points = interior_points (x1, y1, x2, y2).
Proof. eexists. split; reflexivity. Qed.

Lemma points_in_structure_false (mask : list (list bool)) (points : list (float * float)) :
  points_in_structure mask points = Return false ↔
  Forall (λ p, sample_inside mask p = Return false) points.
Proof.
  induction points as [|[x y] points IH]; cbn [points_in_structure].
  - split; [constructor | done].
  - rewrite Forall_cons, <-IH. unfold sample_inside. cbn [fst snd].
    destruct (py_int y) as [iy|]; cbn; [|split; [done | by intros [? _]]].
    destruct (py_int x) as [ix|]; cbn; [|split; [done | by intros [? _]]].
    destruct (np_getitem2 mask iy ix) as [[]|]; cbn.
    + split; [done | by intros [? _]].
    + split; [done | by intros [_ ?]].
    + split; [done | by intros [? _]].
Qed.

Lemma points_in_structure_true (mask : list (list bool)) (points : list (float * float)) :
  points_in_structure mask points = Return true ↔
  ∃ before p after, points = before ++ p :: after ∧
    Forall (λ q, sample_inside mask q = Return false) before ∧
    sample_inside mask p = Return true.
Proof.
  induction points as [|[x y] points IH]; cbn [points_in_structure].
  - split; [done|]. intros (before & p & after & Heq & _). by destruct before.
  - destruct (sample_inside mask (x, y)) as [[]|e] eqn:Hs;
      unfold sample_inside in Hs; cbn [fst snd] in Hs.
    + assert ((iy ← py_int y; ix ← py_int x; inside ← np_getitem2 mask iy ix;
               if inside : bool then Return true else points_in_structure mask points)
              = Return true) as ->.
      { destruct (py_int y); cbn in *; [|done]. destruct (py_int x); cbn in *; [|done].
        by rewrite Hs. }
      split; [|done]. intros _. exists [], (x, y), points. split_and!; [done | constructor |].
      unfold sample_inside. done.
    + assert ((iy ← py_int y; ix ← py_int x; inside ← np_getitem2 mask iy ix;
               if inside : bool then Return true else points_in_structure mask points)
              = points_in_structure mask points) as ->.
      { destruct (py_int y); cbn in *; [|done]. destruct (py_int x); cbn in *; [|done].
        by rewrite Hs. }
      rewrite IH. split.
      * intros (before & p & after & -> & Hb & Hp).
        exists ((x, y) :: before), p, after. split_and!; [done | | done].
        constructor; [|done]. unfold sample_inside. done.
      * intros (before & p & after & Heq & Hb & Hp).
        destruct before as [|q before]; cbn in Heq; injection Heq as <- ->.
        -- unfold sample_inside in Hp. cbn [fst snd] in Hp. congruence.
        -- apply Forall_cons in Hb as [_ Hb]. by exists before, p, after.
    + assert ((iy ← py_int y; ix ← py_int x; inside ← np_getitem2 mask iy ix;
               if inside : bool then Return true else points_in_structure mask points)
              = Raise e) as ->.
      { destruct (py_int y); cbn in *; [|done]. destruct (py_int x); cbn in *; [|done].
        by rewrite Hs. }
      split; [done|]. intros (before & p & after & Heq & Hb & Hp).
      destruct before as [|q before]; cbn in Heq; injection Heq as <- ->.
      * unfold sample_inside in Hp. cbn [fst snd] in Hp. congruence.
      * apply Forall_cons in Hb as [Hq _]. unfold sample_inside in Hq.
        cbn [fst snd] in Hq. congruence.
Qed.

Lemma detect_lines_unfold `{OpenCV} (image : list (list bool))
    (max_depiction_size : Z * Z) (segmentation_mask : list (list bool)) :
  detect_lines image max_depiction_size segmentation_mask =
  (lines ← hough_lines (np_invert_times_255 image) max_depiction_size;
   match lines with
   | None => Return (uint8_array (np_zeros_like (np_invert_times_255 image)))
   | Some lines =>
       exclusion_mask ←
         for_each (classify_segment segmentation_mask)
                  (np_zeros_like (np_invert_times_255 image)) lines;
       Return (bool_array (np_astype_bool exclusion_mask))
   end).
Proof.
  unfold detect_lines.
  destruct (hough_lines _ _) as [[lines|]|e]; cbn; [|done..].
  erewrite for_each_ext; [reflexivity|].
  intros m [[[x1 y1] x2] y2] _. reflexivity.
Qed.

Lemma points_in_structure_readable (mask : list (list bool))
    (points : list (float * float)) :
  Forall (λ p, ∃ inside, sample_inside mask p = Return inside) points →
  points_in_structure mask points
  = Return (existsb (λ p, match sample_inside mask p with
                          | Return inside => inside
                          | Raise _ => false
                          end) points).
Proof.
  induction 1 as [|[x y] points [inside Hp] _ IH]; cbn [points_in_structure existsb]; [done|].
  rewrite Hp. unfold sample_inside in Hp. cbn [fst snd] in Hp.
  destruct (py_int y); cbn in *; [|done]. destruct (py_int x); cbn in *; [|done].
  rewrite Hp. cbn. destruct inside; done.
Qed.

(** C2 as the specification states it fails: the points sampled between the
    end points of a segment are not seven. *)
Lemma detect_lines_samples_not_seven :
  ¬ (∀ (x1 y1 x2 y2 : Z) (points : list (float * float)),
       find_equidistant_points x1 y1 x2 y2 7 = Return points →
       length (py_slice_1_m1 points) = 7%nat).
Proof.
  intros Hclaim.
  destruct (find_equidistant_points_interior 0 0 70 0) as (points & Hpoints & Hslice).
  specialize (Hclaim 0 0 70 0 points Hpoints). rewrite Hslice in Hclaim.
  discriminate Hclaim.
Qed.

(** C2, amended: for every segment the line transform detects, [detect_lines]
    samples exactly 6 points between the end points, at interpolation
    parameter [t = i/7] for [i = 1..6] (seven equal divisions, without
    [i = 0] and [i = 7]), and tests them in this order against the candidate
    mask, up to the first one inside it: the test answers false when each of
    the six is outside, and true when one is inside and all before it are
    outside. *)
Theorem detect_lines_samples `{OpenCV} :
  (∀ image max_depiction_size segmentation_mask,
     detect_lines image max_depiction_size segmentation_mask =
     (lines ← hough_lines (np_invert_times_255 image) max_depiction_size;
      match lines with
      | None => Return (uint8_array (np_zeros_like (np_invert_times_255 image)))
      | Some lines =>
          exclusion_mask ←
            for_each (classify_segment segmentation_mask)
                     (np_zeros_like (np_invert_times_255 image)) lines;
          Return (bool_array (np_astype_bool exclusion_mask))
      end)) ∧
  ∀ (x1 y1 x2 y2 : Z) (segmentation_mask : list (list bool)),
    ∃ points,
      find_equidistant_points x1 y1 x2 y2 7 = Return points ∧
      py_slice_1_m1 points = interior_points (x1, y1, x2, y2) ∧
      length (py_slice_1_m1 points) = 6%nat ∧
      (points_in_structure segmentation_mask (py_slice_1_m1 points) = Return false ↔
       Forall (λ p, sample_inside segmentation_mask p = Return false)
              (interior_points (x1, y1, x2, y2))) ∧
      (points_in_structure segmentation_mask (py_slice_1_m1 points) = Return true ↔
       ∃ before p after,
         interior_points (x1, y1, x2, y2) = before ++ p :: after ∧
         Forall (λ q, sample_inside segmentation_mask q = Return false) before ∧
         sample_inside segmentation_mask p = Return true).
Proof.
  split; [apply detect_lines_unfold|].
  intros x1 y1 x2 y2 mask.
  destruct (find_equidistant_points_interior x1 y1 x2 y2) as (points & Hpoints & Hslice).
  exists points. rewrite Hslice. split_and!; [done | done | reflexivity | |].
  - apply points_in_structure_false.
  - apply points_in_structure_true.
Qed.

Lemma classify_segment_readable `{OpenCV} (mask : list (list bool))
    (exclusion_mask : list (list Z)) (x1 y1 x2 y2 : Z) :
  Forall (λ p, ∃ inside, sample_inside mask p = Return inside)
         (interior_points (x1, y1, x2, y2)) →
  classify_segment mask exclusion_mask (x1, y1, x2, y2)
  = Return (if any_sample_inside mask (x1, y1, x2, y2) then exclusion_mask
            else line exclusion_mask (x1, y1) (x2, y2) 255 3).
Proof.
  intros Hread. unfold classify_segment, any_sample_inside.
  rewrite (points_in_structure_readable _ _ Hread).
  match goal with |- context [existsb ?f ?l] => generalize (existsb f l) end.
  intros []; reflexivity.
Qed.

Lemma for_each_classify_segment `{OpenCV} (mask : list (list bool))
    (lines : list (Z * Z * Z * Z)) (blank : list (list Z)) :
  Forall (λ segment, Forall (λ p, ∃ inside, sample_inside mask p = Return inside)
                            (interior_points segment)) lines →
  for_each (classify_segment mask) blank lines
  = Return (noise_segments_drawn mask lines blank).
Proof.
  intros Hlines. revert blank.
  induction Hlines as [|[[[x1 y1] x2] y2] lines Hs _ IH]; intros blank; [done|].
  cbn [for_each]. rewrite (classify_segment_readable _ _ _ _ _ _ Hs). cbn.
  apply IH.
Qed.

(** C4: when the line transform detects segments (and the sample points can
    be read in the candidate mask), the exclusion mask [detect_lines] returns
    is the blank mask into which exactly the segments without any sample
    point inside the candidate mask have been drawn, in full and 3 pixels
    thick; a segment with some sample point inside adds nothing. *)
Theorem detect_lines_any_sample_inside `{OpenCV} (image : list (list bool))
    (max_depiction_size : Z * Z) (segmentation_mask : list (list bool))
    (lines : list (Z * Z * Z * Z)) :
  hough_lines (np_invert_times_255 image) max_depiction_size = Return (Some lines) →
  Forall (λ segment,
            Forall (λ p, ∃ inside, sample_inside segmentation_mask p = Return inside)
                   (interior_points segment)) lines →
  detect_lines image max_depiction_size segmentation_mask
  = Return (bool_array (np_astype_bool
      (noise_segments_drawn segmentation_mask lines
         (np_zeros_like (np_invert_times_255 image))))).
Proof.
  intros Hhough Hread. rewrite detect_lines_unfold, Hhough. cbn.
  rewrite (for_each_classify_segment _ _ _ Hread). reflexivity.
Qed.

Lemma np_zeros_like_all_false (a : list (list Z)) :
  Forall (Forall (λ b, b = false)) (np_astype_bool (np_zeros_like a)).
Proof.
  unfold np_astype_bool, np_zeros_like. rewrite !Forall_fmap.
  apply Forall_true. intros row. cbn. rewrite !Forall_fmap.
  apply Forall_true. done.
Qed.

Lemma np_zeros_like_shape (a : list (list bool)) :
  length <$> np_astype_bool (np_zeros_like (np_invert_times_255 a)) = length <$> a.
Proof.
  unfold np_astype_bool, np_zeros_like, np_invert_times_255.
  rewrite <-!list_fmap_compose. apply list_fmap_ext. intros _ row _. cbn.
  by rewrite !length_fmap.
Qed.

(** C7: when the line transform detects no segment, [detect_lines] returns an
    array of the shape of its input image in which every entry is false (the
    blank [uint8] array of zeros). *)
Theorem detect_lines_no_segments `{OpenCV} (image : list (list bool))
    (max_depiction_size : Z * Z) (segmentation_mask : list (list bool)) :
  hough_lines (np_invert_times_255 image) max_depiction_size = Return None →
  ∃ exclusion_mask,
    detect_lines image max_depiction_size segmentation_mask = Return exclusion_mask ∧
    length <$> truth exclusion_mask = length <$> image ∧
    np_shape (truth exclusion_mask) = np_shape image ∧
    Forall (Forall (λ b, b = false)) (truth exclusion_mask).
Proof.
  intros Hhough. rewrite detect_lines_unfold, Hhough. cbn.
  eexists. split; [reflexivity|]. cbn [truth].
  pose proof (np_zeros_like_shape image) as Hshape.
  split_and!; [done | | apply np_zeros_like_all_false].
  unfold np_shape. rewrite <-(length_fmap length), Hshape, length_fmap. f_equal.
  destruct image as [|row image]; [done|]. cbn in *. by injection Hshape.
Qed.

Lemma detect_lines_any_sample_inside_witness :
  @detect_lines (stand_in_cv (Some [(0, 0, 3, 0); (0, 1, 3, 1)]))
    [[true; true; true; true]; [true; true; true; true]] (8, 8)
    [[false; true; false; false]; [false; false; false; false]]
  = Return (bool_array [[false; false; false; false]; [true; false; false; true]]).
Proof.
  apply (@detect_lines_any_sample_inside
           (stand_in_cv (Some [(0, 0, 3, 0); (0, 1, 3, 1)]))
           [[true; true; true; true]; [true; true; true; true]] (8, 8)
           [[false; true; false; false]; [false; false; false; false]]
           [(0, 0, 3, 0); (0, 1, 3, 1)]).
  - vm_compute. reflexivity.
  - repeat (apply Forall_cons; split);
      try apply Forall_nil; eexists; vm_compute; reflexivity.
Defined.

Lemma detect_lines_no_segments_witness :
  ∃ exclusion_mask,
    @detect_lines (stand_in_cv None) [[true; false]; [false; true]] (8, 8)
                  [[false; false]; [false; false]] = Return exclusion_mask ∧
    length <$> truth exclusion_mask = length <$> [[true; false]; [false; true]] ∧
    np_shape (truth exclusion_mask) = np_shape [[true; false]; [false; true]] ∧
    Forall (Forall (λ b, b = false)) (truth exclusion_mask).
Proof.
  apply (@detect_lines_no_segments (stand_in_cv None)
           [[true; false]; [false; true]] (8, 8) [[false; false]; [false; false]]).
  vm_compute. reflexivity.
Defined.

(** ** The axis-aligned line detector *)

(** C8: [detect_horizontal_and_vertical_lines] returns the elementwise
    disjunction of two directional masks, of the shape of the image: the
    pixels at 255 after a morphological opening, 2 iterations, with the
    rectangular kernel of one row and [max_width] columns, and those after
    an opening, 2 iterations, with the kernel of [max_height] rows and one
    column (both on the inverted image). *)
Theorem detect_horizontal_and_vertical_lines_or `{OpenCV} (image : list (list bool))
    (max_height max_width : Z)
    (horizontal_kernel vertical_kernel horizontal_open vertical_open : list (list Z)) :
  getStructuringElement MORPH_RECT (max_width, 1) = Return horizontal_kernel →
  morphologyEx (np_invert_times_255 image) MORPH_OPEN horizontal_kernel 2
    = Return horizontal_open →
  getStructuringElement MORPH_RECT (1, max_height) = Return vertical_kernel →
  morphologyEx (np_invert_times_255 image) MORPH_OPEN vertical_kernel 2
    = Return vertical_open →
  detect_horizontal_and_vertical_lines image (max_height, max_width)
    = Return (zip_with (zip_with orb) (np_equal horizontal_open 255)
                                      (np_equal vertical_open 255)) ∧
  length <$> zip_with (zip_with orb) (np_equal horizontal_open 255)
                                     (np_equal vertical_open 255)
    = length <$> image.
Proof.
  intros Hhk Hho Hvk Hvo. unfold detect_horizontal_and_vertical_lines.
  rewrite Hhk. cbn. rewrite Hho. cbn. rewrite Hvk. cbn. rewrite Hvo. cbn.
  apply morphologyEx_shape in Hho, Hvo.
  assert (length <$> np_invert_times_255 image = length <$> image) as Himage.
  { unfold np_invert_times_255. rewrite <-list_fmap_compose.
    apply list_fmap_ext. intros _ row _. cbn. by rewrite length_fmap. }
  assert (∀ a v, length <$> np_equal a v = length <$> a) as Hequal.
  { intros a v. unfold np_equal. rewrite <-list_fmap_compose.
    apply list_fmap_ext. intros _ row _. cbn. by rewrite length_fmap. }
  rewrite Himage in Hho, Hvo. unfold np_add_bool.
  rewrite bool_decide_eq_true_2 by (rewrite !Hequal; congruence). split; [done|].
  rewrite <-(Hequal horizontal_open 255) in Hho.
  rewrite <-(Hequal vertical_open 255) in Hvo.
  rewrite <-Hho. clear -Hho Hvo. rewrite <-Hvo in Hho. clear Hvo.
  revert Hho. generalize (np_equal horizontal_open 255) (np_equal vertical_open 255).
  induction l as [|r l IH]; intros [|r' l'] Hlen; cbn in *; try done.
  injection Hlen as Hr Hl. f_equal; [|by apply IH].
  rewrite length_zip_with. lia.
Qed.

Lemma detect_horizontal_and_vertical_lines_or_witness :
  @detect_horizontal_and_vertical_lines (stand_in_cv None)
     [[true; false]; [false; false]] (2, 2)
  = Return (zip_with (zip_with orb)
              (np_equal [[0; 255]; [255; 255]] 255)
              (np_equal [[0; 255]; [255; 255]] 255)) ∧
  length <$> zip_with (zip_with orb)
               (np_equal [[0; 255]; [255; 255]] 255)
               (np_equal [[0; 255]; [255; 255]] 255)
  = length <$> [[true; false]; [false; false]].
Proof.
  apply (@detect_horizontal_and_vertical_lines_or (stand_in_cv None)
           [[true; false]; [false; false]] 2 2 [[1; 1]] [[1]; [1]]);
    vm_compute; reflexivity.
Defined.

(** ** The orchestrator *)

(** C5: [detect_chemical_structures] returns a pair exactly when the second
    component is what [detect_lines] returns on the inverted structure mask,
    the size estimate (height/10, width/10) and the structure mask as
    candidate mask, the first component being the structure mask built from
    the binarized image. *)
Theorem detect_chemical_structures_composition `{OpenCV} `{Skimage}
    (image : list (list (list float))) (structure_mask : list (list bool))
    (exclusion_mask : ndarray) :
  detect_chemical_structures image = Return (structure_mask, exclusion_mask) ↔
  structure_mask = complete_structure_mask (binarize_image image otsu) ∧
  detect_lines (np_invert structure_mask)
    (Z.of_nat (length image) `div` 10, Z.of_nat (length (hd [] image)) `div` 10)
    structure_mask = Return exclusion_mask.
Proof.
  unfold detect_chemical_structures. cbn zeta. split.
  - intros (e & He & [= <- <-])%bind_inv. done.
  - intros [-> ->]. reflexivity.
Qed.

(** ** The structure mask builder *)

Lemma py_getitem_lookup {A : Type} (l : list A) (i : Z) (a : A) :
  py_getitem l i = Return a ↔ ∃ n, py_index (length l) i = Some n ∧ l !! n = Some a.
Proof.
  unfold py_getitem, py_index. cbn zeta.
  destruct ((0 <=? _) && (_ <? _)).
  - destruct (l !! Z.to_nat _) as [a'|] eqn:Hl.
    + split; [intros [= ->]; eauto | intros (n & [= <-] & Hn); congruence].
    + split; [done | intros (n & [= <-] & Hn); congruence].
  - split; [done | by intros (n & ? & _)].
Qed.

Lemma np_getitem2_lookup {A : Type} (a : list (list A)) (y x : Z) (c : A) :
  np_getitem2 a y x = Return c ↔
  ∃ i j row, py_index (length a) y = Some i ∧ a !! i = Some row ∧
             py_index (length row) x = Some j ∧ row !! j = Some c.
Proof.
  unfold np_getitem2. split.
  - intros (row & (i & Hi & Hrow)%py_getitem_lookup & (j & Hj & Hc)%py_getitem_lookup)%bind_inv.
    by exists i, j, row.
  - intros (i & j & row & Hi & Hrow & Hj & Hc).
    assert (py_getitem a y = Return row) as -> by (apply py_getitem_lookup; eauto).
    cbn. apply py_getitem_lookup. eauto.
Qed.

Lemma np_fromfunction_like_lookup {A : Type} (f : Z → Z → bool) (a : list (list A))
    (i j : nat) (b : bool) :
  (np_fromfunction_like f a !! i ≫= (.!! j)) = Some b ↔
  (∃ c, (a !! i ≫= (.!! j)) = Some c) ∧ b = f (Z.of_nat i) (Z.of_nat j).
Proof.
  unfold np_fromfunction_like. rewrite list_lookup_imap.
  destruct (a !! i) as [row|]; cbn; [|split; [done | by intros [[? ?] _]]].
  rewrite list_lookup_imap. destruct (row !! j) as [c|]; cbn.
  - split; [intros [= <-]; eauto | by intros [_ ->]].
  - split; [done | by intros [[? ?] _]].
Qed.

Lemma np_fromfunction_like_shape {A : Type} (f : Z → Z → bool) (a : list (list A)) :
  length <$> np_fromfunction_like f a = length <$> a.
Proof.
  unfold np_fromfunction_like. apply list_eq. intros i.
  rewrite !list_lookup_fmap, list_lookup_imap.
  destruct (a !! i); cbn; [|done]. by rewrite length_imap.
Qed.

Lemma np_getitem2_fromfunction_like {A : Type} (f : Z → Z → bool) (a : list (list A))
    (y x : Z) (b : bool) :
  np_getitem2 (np_fromfunction_like f a) y x = Return b ↔
  ∃ i j row c, py_index (length a) y = Some i ∧ a !! i = Some row ∧
               py_index (length row) x = Some j ∧ row !! j = Some c ∧
               b = f (Z.of_nat i) (Z.of_nat j).
Proof.
  rewrite np_getitem2_lookup. unfold np_fromfunction_like. rewrite length_imap. split.
  - intros (i & j & row' & Hi & Hrow' & Hj & Hb).
    rewrite list_lookup_imap in Hrow'.
    destruct (a !! i) as [row|] eqn:Hrow; [|done]. injection Hrow' as <-.
    rewrite length_imap in Hj. rewrite list_lookup_imap in Hb.
    destruct (row !! j) as [c|] eqn:Hc; [|done]. injection Hb as <-.
    by exists i, j, row, c.
  - intros (i & j & row & c & Hi & Hrow & Hj & Hc & ->).
    exists i, j, (imap (λ x _, f (Z.of_nat i) (Z.of_nat x)) row).
    rewrite !list_lookup_imap, Hrow, length_imap. cbn. rewrite Hc. done.
Qed.

Lemma pixel_or_false_true (a : list (list bool)) (y x : Z) :
  pixel_or false a y x = true →
  0 ≤ y ∧ 0 ≤ x ∧ (a !! Z.to_nat y ≫= (.!! Z.to_nat x)) = Some true.
Proof.
  unfold pixel_or.
  destruct (Z.leb_spec 0 y); cbn; [|done]. destruct (Z.leb_spec 0 x); cbn; [|done].
  destruct (a !! Z.to_nat y) as [row|]; cbn; [|done].
  destruct (row !! Z.to_nat x) as [[]|]; cbn; done.
Qed.

(** An erosion followed by the dilation with the same structuring element
    sets no pixel that the image does not have set. *)
Lemma opening_anti_extensive (image selem : list (list bool)) (i j : nat) :
  (binary_dilation (binary_erosion image selem) selem !! i ≫= (.!! j)) = Some true →
  (image !! i ≫= (.!! j)) = Some true.
Proof.
  unfold binary_dilation at 1.
  intros [[c Hc] Hex]%np_fromfunction_like_lookup. symmetry in Hex.
  apply existsb_exists in Hex as ([dy dx] & Hoff & Hpix).
  apply pixel_or_false_true in Hpix as (Hy & Hx & Hpix).
  apply np_fromfunction_like_lookup in Hpix as [_ Hall]. symmetry in Hall.
  rewrite forallb_forall in Hall. specialize (Hall _ Hoff). cbn in Hall.
  rewrite !Z2Nat.id in Hall by done.
  replace (Z.of_nat i - dy + dy) with (Z.of_nat i) in Hall by lia.
  replace (Z.of_nat j - dx + dx) with (Z.of_nat j) in Hall by lia.
  apply np_fromfunction_like_lookup in Hc as [[c' Hc'] _].
  unfold pixel_or in Hall. rewrite !Nat2Z.id in Hall.
  destruct (Z.leb_spec 0 (Z.of_nat i)); [|lia].
  destruct (Z.leb_spec 0 (Z.of_nat j)); [|lia]. cbn in Hall.
  destruct (image !! i) as [row|]; cbn in *; [|done].
  destruct (row !! j); cbn in *; congruence.
Qed.

Lemma np_getitem2_same_shape (a b : list (list bool)) (y x : Z) :
  length <$> a = length <$> b →
  (∀ i j, (a !! i ≫= (.!! j)) = Some true → (b !! i ≫= (.!! j)) = Some true) →
  np_getitem2 a y x = Return true → np_getitem2 b y x = Return true.
Proof.
  intros Hshape Hab. rewrite !np_getitem2_lookup.
  intros (i & j & row & Hi & Hrow & Hj & Hc).
  specialize (Hab i j). rewrite Hrow in Hab. cbn in Hab. specialize (Hab Hc).
  destruct (b !! i) as [row_b|] eqn:Hrow_b; [|done]. cbn in Hab.
  exists i, j, row_b. split_and!; [|done| |done].
  - by rewrite <-(length_fmap length b), <-Hshape, length_fmap.
  - apply (f_equal (λ l, l !! i)) in Hshape.
    rewrite !list_lookup_fmap, Hrow, Hrow_b in Hshape. cbn in Hshape.
    injection Hshape as <-. done.
Qed.

(** C10: [complete_structure_mask] is anti-extensive: a pixel that is set in
    the structure mask is set in the mask it is built from. *)
Theorem complete_structure_mask_anti_extensive (image : list (list bool)) (y x : Z) :
  np_getitem2 (complete_structure_mask image) y x = Return true →
  np_getitem2 image y x = Return true.
Proof.
  apply np_getitem2_same_shape.
  - unfold complete_structure_mask, binary_dilation, binary_erosion.
    by rewrite !np_fromfunction_like_shape.
  - intros i j. unfold complete_structure_mask.
    exact (opening_anti_extensive image (np_ones 5 5) i j).
Qed.

Lemma complete_structure_mask_anti_extensive_witness :
  np_getitem2 (replicate 6 (replicate 6 true)) 3 3 = Return true.
Proof.
  apply (complete_structure_mask_anti_extensive (replicate 6 (replicate 6 true)) 3 3).
  vm_compute. reflexivity.
Defined.

(** * Further properties *)

(** ** [get_seeds] *)

Lemma get_seeds_unfold (image mask excl : list (list bool)) :
  get_seeds image mask excl =
  (y_max ← np_max (where_rows 0 mask).*1;
   y_min ← np_min (where_rows 0 mask).*1;
   x_max ← np_max (where_rows 0 mask).*2;
   x_min ← np_min (where_rows 0 mask).*2;
   for_each
     (λ acc a, o ← seed_keep excl y_min y_max x_min x_max a;
               Return (from_option (λ b, acc ++ [b]) acc o))
     [] (elements (list_to_set (where_rows 0 mask)
                   ∩ list_to_set (where_rows 0 (np_invert image)) : gset (Z * Z)))).
Proof.
  unfold get_seeds, np_where. cbn zeta. rewrite !zip_fst_snd.
  destruct (np_max _) as [y_max|]; cbn; [|done].
  destruct (np_min _) as [y_min|]; cbn; [|done].
  destruct (np_max _) as [x_max|]; cbn; [|done].
  destruct (np_min _) as [x_min|]; cbn; [|done].
  apply for_each_ext. intros acc [y' x'] _. unfold seed_keep, inner_window.
  destruct (_ <? _)%float; cbn; [done|].
  destruct (_ <? _)%float; cbn; [done|].
  destruct (_ <? _)%float; cbn; [done|].
  destruct (_ <? _)%float; cbn; [done|].
  destruct (np_getitem2 excl y' x') as [[]|]; done.
Qed.

(** The list a selecting loop returns, in the order of the iteration. *)
Lemma for_each_select_list {A B : Type} (keep : A → result (option B))
    (l : list A) (acc r : list B) :
  for_each (λ acc a, o ← keep a; Return (from_option (λ b, acc ++ [b]) acc o)) acc l
    = Return r →
  r = acc ++ omap (λ a, match keep a with Return o => o | Raise _ => None end) l.
Proof.
  revert acc. induction l as [|a l IH]; intros acc; cbn.
  - intros [= <-]. by rewrite app_nil_r.
  - destruct (keep a) as [[b|]|e]; cbn; [| |done].
    + intros Hr. apply IH in Hr as ->. by rewrite <-app_assoc.
    + apply IH.
Qed.

Lemma for_each_select_raise {A B : Type} (keep : A → result (option B))
    (l : list A) (acc : list B) (e : exn) :
  for_each (λ acc a, o ← keep a; Return (from_option (λ b, acc ++ [b]) acc o)) acc l
    = Raise e →
  ∃ a, a ∈ l ∧ keep a = Raise e.
Proof.
  revert acc. induction l as [|a l IH]; intros acc; cbn [for_each]; [done|].
  destruct (keep a) as [o|e'] eqn:Hk; cbn.
  - intros (a' & Ha' & Hk')%IH. exists a'. split; [by right | done].
  - intros [= ->]. exists a. split; [left | done].
Qed.

Lemma for_each_select_raises {A B : Type} (keep : A → result (option B))
    (l : list A) (acc : list B) (a : A) (e : exn) :
  a ∈ l → keep a = Raise e →
  (∀ a' e', a' ∈ l → keep a' = Raise e' → e' = e) →
  for_each (λ acc a, o ← keep a; Return (from_option (λ b, acc ++ [b]) acc o)) acc l
    = Raise e.
Proof.
  revert acc. induction l as [|a0 l IH]; intros acc Ha Hk Hall; [by apply elem_of_nil in Ha|].
  cbn [for_each]. destruct (keep a0) as [o|e0] eqn:Hk0; cbn.
  - apply IH; [|done|].
    + apply elem_of_cons in Ha as [->|Ha]; [congruence | done].
    + intros a' e' Ha'. apply Hall. by right.
  - f_equal. apply (Hall a0); [left | done].
Qed.

Lemma py_getitem_raise {A : Type} (l : list A) (i : Z) (e : exn) :
  py_getitem l i = Raise e → e = IndexError.
Proof.
  unfold py_getitem. cbn zeta. destruct (_ && _); [|by intros [= <-]].
  destruct (l !! _); [done | by intros [= <-]].
Qed.

Lemma np_getitem2_raise {A : Type} (a : list (list A)) (y x : Z) (e : exn) :
  np_getitem2 a y x = Raise e → e = IndexError.
Proof.
  unfold np_getitem2. destruct (py_getitem a y) as [row|e'] eqn:Hrow; cbn.
  - apply py_getitem_raise.
  - intros [= <-]. by apply py_getitem_raise in Hrow.
Qed.

Lemma bounding_box_unique (mask : list (list bool))
    (y_min y_max x_min x_max y_min' y_max' x_min' x_max' : Z) :
  bounding_box mask y_min y_max x_min x_max →
  bounding_box mask y_min' y_max' x_min' x_max' →
  y_min = y_min' ∧ y_max = y_max' ∧ x_min = x_min' ∧ x_max = x_max'.
Proof.
  intros ([a Ha] & [b Hb] & [c Hc] & [d Hd] & Hall)
         ([a' Ha'] & [b' Hb'] & [c' Hc'] & [d' Hd'] & Hall').
  apply Hall' in Ha, Hb, Hc, Hd. apply Hall in Ha', Hb', Hc', Hd'. lia.
Qed.

Lemma np_bounds_bounding_box (mask : list (list bool)) (y_min y_max x_min x_max : Z) :
  np_max (where_rows 0 mask).*1 = Return y_max →
  np_min (where_rows 0 mask).*1 = Return y_min →
  np_max (where_rows 0 mask).*2 = Return x_max →
  np_min (where_rows 0 mask).*2 = Return x_min →
  bounding_box mask y_min y_max x_min x_max.
Proof.
  intros [Hymax Hyub]%np_max_spec [Hymin Hylb]%np_min_spec
         [Hxmax Hxub]%np_max_spec [Hxmin Hxlb]%np_min_spec.
  apply list_elem_of_fmap in Hymax as ([? x1] & -> & Hymax).
  apply list_elem_of_fmap in Hymin as ([? x2] & -> & Hymin).
  apply list_elem_of_fmap in Hxmax as ([y1 ?] & -> & Hxmax).
  apply list_elem_of_fmap in Hxmin as ([y2 ?] & -> & Hxmin).
  cbn [fst snd] in *. split_and!.
  - exists x2. by apply is_set_where_rows.
  - exists x1. by apply is_set_where_rows.
  - exists y2. by apply is_set_where_rows.
  - exists y1. by apply is_set_where_rows.
  - intros y x Hset%is_set_where_rows.
    assert (y ∈ (where_rows 0 mask).*1) as Hy by (apply list_elem_of_fmap; by exists (y, x)).
    assert (x ∈ (where_rows 0 mask).*2) as Hx by (apply list_elem_of_fmap; by exists (y, x)).
    apply Hyub in Hy as ?. apply Hylb in Hy as ?.
    apply Hxub in Hx as ?. apply Hxlb in Hx as ?. lia.
Qed.

Lemma NoDup_omap_inj {A B : Type} (f : A → option B) (l : list A) :
  (∀ a a' b, f a = Some b → f a' = Some b → a = a') →
  NoDup l → NoDup (omap f l).
Proof.
  intros Hinj. induction 1 as [|a l Ha _ IH]; cbn; [constructor|].
  destruct (f a) as [b|] eqn:Hfa; [|done].
  constructor; [|done]. intros (a' & Ha' & Hfa')%list_elem_of_omap.
  by rewrite (Hinj _ _ _ Hfa Hfa') in Ha.
Qed.

Lemma seed_keep_Some (excl : list (list bool)) (y_min y_max x_min x_max : Z)
    (coordinate seed : Z * Z) :
  seed_keep excl y_min y_max x_min x_max coordinate = Return (Some seed) →
  seed = (coordinate.2, coordinate.1).
Proof.
  destruct coordinate as [y x]. unfold seed_keep.
  destruct (inner_window _ _ _ _ _ _); [|done].
  destruct (np_getitem2 excl y x) as [[]|]; cbn; [done | | done].
  by intros [= <-].
Qed.

(** X1: the seeds [get_seeds] returns are exactly the pixels that are set in
    the region mask, ink (false) in the image, inside the inner window of the
    region's bounding box and unset in the exclusion mask. *)
Theorem get_seeds_exact (image mask excl : list (list bool)) (seeds : list (Z * Z)) :
  get_seeds image mask excl = Return seeds →
  ∃ y_min y_max x_min x_max,
    bounding_box mask y_min y_max x_min x_max ∧
    ∀ x y, (x, y) ∈ seeds ↔
      is_set mask y x ∧ np_getitem2 image y x = Return false ∧
      inner_window y_min y_max x_min x_max y x = true ∧
      np_getitem2 excl y x = Return false.
Proof. apply get_seeds_inv. Qed.

Lemma get_seeds_exact_witness :
  ∃ y_min y_max x_min x_max,
    bounding_box [[true]] y_min y_max x_min x_max ∧
    ∀ x y, (x, y) ∈ [(0, 0)] ↔
      is_set [[true]] y x ∧ np_getitem2 [[false]] y x = Return false ∧
      inner_window y_min y_max x_min x_max y x = true ∧
      np_getitem2 [[false]] y x = Return false.
Proof.
  apply (get_seeds_exact [[false]] [[true]] [[false]] [(0, 0)]).
  vm_compute. reflexivity.
Defined.

(** X2: [get_seeds] returns no coordinate twice. *)
Theorem get_seeds_NoDup (image mask excl : list (list bool)) (seeds : list (Z * Z)) :
  get_seeds image mask excl = Return seeds → NoDup seeds.
Proof.
  rewrite get_seeds_unfold.
  intros (y_max & _ & H)%bind_inv. apply bind_inv in H as (y_min & _ & H).
  apply bind_inv in H as (x_max & _ & H). apply bind_inv in H as (x_min & _ & H).
  apply for_each_select_list in H as ->. cbn [app].
  apply NoDup_omap_inj; [|apply NoDup_elements].
  intros [y x] [y' x'] seed Ha Ha'.
  destruct (seed_keep _ _ _ _ _ (y, x)) as [o|] eqn:Hk; [|done].
  destruct (seed_keep _ _ _ _ _ (y', x')) as [o'|] eqn:Hk'; [|done].
  subst o o'. apply seed_keep_Some in Hk, Hk'. cbn in Hk, Hk'. congruence.
Qed.

Lemma get_seeds_NoDup_witness : NoDup [(0, 0)].
Proof.
  apply (get_seeds_NoDup [[false]] [[true]] [[false]] [(0, 0)]).
  vm_compute. reflexivity.
Defined.

(** X3: [get_seeds] fails in two ways only: with [ValueError] when the region
    mask has no set pixel, and with [IndexError] when the exclusion mask
    cannot be read at an ink pixel of the region inside the inner window. *)
Theorem get_seeds_raise_cases (image mask excl : list (list bool)) (e : exn) :
  get_seeds image mask excl = Raise e →
  (e = ValueError ∧ ∀ y x, ¬ is_set mask y x) ∨
  (e = IndexError ∧
   ∃ y_min y_max x_min x_max y x,
     bounding_box mask y_min y_max x_min x_max ∧
     is_set mask y x ∧ np_getitem2 image y x = Return false ∧
     inner_window y_min y_max x_min x_max y x = true ∧
     np_getitem2 excl y x = Raise IndexError).
Proof.
  rewrite get_seeds_unfold.
  destruct (where_rows 0 mask) as [|c cs] eqn:Hc.
  { cbn. intros [= <-]. left. split; [done|].
    intros y x Hset%is_set_where_rows. rewrite Hc in Hset. by apply elem_of_nil in Hset. }
  rewrite <-Hc.
  destruct (np_max_is_Return (where_rows 0 mask).*1) as [y_max Hymax]; [by rewrite Hc|].
  destruct (np_min_is_Return (where_rows 0 mask).*1) as [y_min Hymin]; [by rewrite Hc|].
  destruct (np_max_is_Return (where_rows 0 mask).*2) as [x_max Hxmax]; [by rewrite Hc|].
  destruct (np_min_is_Return (where_rows 0 mask).*2) as [x_min Hxmin]; [by rewrite Hc|].
  rewrite Hymax, Hymin, Hxmax, Hxmin. cbn.
  intros ([y x] & Hin & Hk)%for_each_select_raise. right.
  unfold seed_keep in Hk.
  destruct (inner_window _ _ _ _ y x) eqn:Hw; [|done].
  destruct (np_getitem2 excl y x) as [?|e'] eqn:He; cbn in Hk; [done|].
  injection Hk as ->. pose proof (np_getitem2_raise _ _ _ _ He) as ->.
  apply elem_of_elements, elem_of_intersection in Hin as [Hm Hi].
  apply elem_of_list_to_set, is_set_where_rows in Hm, Hi.
  destruct Hi as (Hy & Hx & Hi). apply np_invert_getitem2 in Hi; [|done..].
  split; [done|]. exists y_min, y_max, x_min, x_max, y, x.
  split_and!; [by apply np_bounds_bounding_box | done..].
Qed.

Lemma get_seeds_raise_cases_witness :
  (IndexError = ValueError ∧ ∀ y x, ¬ is_set [[true]] y x) ∨
  (IndexError = IndexError ∧
   ∃ y_min y_max x_min x_max y x,
     bounding_box [[true]] y_min y_max x_min x_max ∧
     is_set [[true]] y x ∧ np_getitem2 [[false]] y x = Return false ∧
     inner_window y_min y_max x_min x_max y x = true ∧
     np_getitem2 ([] : list (list bool)) y x = Raise IndexError).
Proof.
  apply (get_seeds_raise_cases [[false]] [[true]] [] IndexError).
  vm_compute. reflexivity.
Defined.

Lemma get_seeds_candidate_unreadable (image mask excl : list (list bool))
    (y_min y_max x_min x_max y x : Z) (e : exn) :
  bounding_box mask y_min y_max x_min x_max →
  is_set mask y x → np_getitem2 image y x = Return false →
  inner_window y_min y_max x_min x_max y x = true →
  np_getitem2 excl y x = Raise e →
  get_seeds image mask excl = Raise IndexError.
Proof.
  intros Hbox Hset Hink Hw He. rewrite get_seeds_unfold.
  pose proof Hset as Hc%is_set_where_rows.
  assert ((where_rows 0 mask).*1 ≠ []) as Hne1
    by (intros Hnil%fmap_nil_inv; rewrite Hnil in Hc; by apply elem_of_nil in Hc).
  assert ((where_rows 0 mask).*2 ≠ []) as Hne2
    by (intros Hnil%fmap_nil_inv; rewrite Hnil in Hc; by apply elem_of_nil in Hc).
  destruct (np_max_is_Return _ Hne1) as [y_max' Hymax], (np_min_is_Return _ Hne1) as [y_min' Hymin].
  destruct (np_max_is_Return _ Hne2) as [x_max' Hxmax], (np_min_is_Return _ Hne2) as [x_min' Hxmin].
  rewrite Hymax, Hymin, Hxmax, Hxmin. cbn.
  destruct (bounding_box_unique _ _ _ _ _ _ _ _ _ Hbox
              (np_bounds_bounding_box _ _ _ _ _ Hymax Hymin Hxmax Hxmin))
    as (<- & <- & <- & <-).
  pose proof (np_getitem2_raise _ _ _ _ He) as ->.
  apply for_each_select_raises with (a := (y, x)).
  - apply elem_of_elements, elem_of_intersection.
    rewrite !elem_of_list_to_set, <-!is_set_where_rows. split; [done|].
    destruct Hset as (Hy & Hx & _). split_and!; [done..|].
    by apply np_invert_getitem2.
  - unfold seed_keep. by rewrite Hw, He.
  - intros [y' x'] e' _. unfold seed_keep.
    destruct (inner_window _ _ _ _ y' x'); [|done].
    destruct (np_getitem2 excl y' x') as [?|e''] eqn:He'; cbn; [done|].
    intros [= <-]. by apply np_getitem2_raise in He'.
Qed.

(** X4: when the exclusion mask cannot be read at some ink pixel of the
    region that lies inside the inner window, [get_seeds] raises
    [IndexError], whatever else it holds. *)
Theorem get_seeds_unreadable_exclusion (image mask excl : list (list bool))
    (y_min y_max x_min x_max y x : Z) (e : exn) :
  bounding_box mask y_min y_max x_min x_max →
  is_set mask y x → np_getitem2 image y x = Return false →
  inner_window y_min y_max x_min x_max y x = true →
  np_getitem2 excl y x = Raise e →
  get_seeds image mask excl = Raise IndexError.
Proof. apply get_seeds_candidate_unreadable. Qed.

Lemma get_seeds_unreadable_exclusion_witness :
  get_seeds [[false]] [[true]] [] = Raise IndexError.
Proof.
  apply (get_seeds_unreadable_exclusion [[false]] [[true]] [] 0 0 0 0 0 0 IndexError).
  - apply np_bounds_bounding_box; vm_compute; reflexivity.
  - vm_compute. split_and!; [discriminate.. | reflexivity].
  - vm_compute. reflexivity.
  - vm_compute. reflexivity.
  - vm_compute. reflexivity.
Defined.

(** X5: excluding more pixels never adds a seed: when every pixel set in one
    exclusion mask is set in another, the seeds found with the other are
    among the seeds found with the first. *)
Theorem get_seeds_exclusion_monotone (image mask excl excl' : list (list bool))
    (seeds seeds' : list (Z * Z)) :
  get_seeds image mask excl = Return seeds →
  get_seeds image mask excl' = Return seeds' →
  (∀ y x, np_getitem2 excl y x = Return true → np_getitem2 excl' y x = Return true) →
  seeds' ⊆ seeds.
Proof.
  intros Hs Hs' Hsub [x y] Hin.
  destruct (get_seeds_inv _ _ _ _ Hs) as (y_min & y_max & x_min & x_max & Hbox & Hseeds).
  destruct (get_seeds_inv _ _ _ _ Hs') as (y_min' & y_max' & x_min' & x_max' & Hbox' & Hseeds').
  destruct (bounding_box_unique _ _ _ _ _ _ _ _ _ Hbox Hbox') as (? & ? & ? & ?).
  subst y_min' y_max' x_min' x_max'.
  destruct (proj1 (Hseeds' x y) Hin) as (Hset & Hink & Hw & He'). apply Hseeds.
  split_and!; [done..|].
  destruct (np_getitem2 excl y x) as [[]|e] eqn:He; [| done |].
  - apply Hsub in He. congruence.
  - pose proof (get_seeds_candidate_unreadable _ _ _ _ _ _ _ _ _ _ Hbox Hset Hink Hw He).
    congruence.
Qed.

Lemma get_seeds_exclusion_monotone_witness :
  [(0, 0)] ⊆ [(0, 0)].
Proof.
  apply (get_seeds_exclusion_monotone [[false]] [[true]] [[false]] [[false]]).
  - vm_compute. reflexivity.
  - vm_compute. reflexivity.
  - intros y x Hset. exact Hset.
Defined.

(** ** [find_equidistant_points] *)

Lemma for_each_append {A B : Type} (g : A → B) (l : list A) (acc : list B) :
  for_each (λ points i, Return (points ++ [g i])) acc l = Return (acc ++ (g <$> l)).
Proof.
  revert acc. induction l as [|a l IH]; intros acc; cbn.
  - by rewrite app_nil_r.
  - rewrite IH. by rewrite <-app_assoc.
Qed.

Lemma find_equidistant_points_map (x1 y1 x2 y2 n : Z) :
  n ≠ 0 →
  find_equidistant_points x1 y1 x2 y2 n
  = Return (point_at x1 y1 x2 y2 n <$> py_range (n + 1)).
Proof.
  intros Hn. unfold find_equidistant_points.
  rewrite <-(app_nil_l (_ <$> _)), <-for_each_append.
  apply for_each_ext. intros points i _. unfold py_truediv.
  destruct (Z.eqb_spec n 0); [done|]. reflexivity.
Qed.

Lemma py_range_lookup (m i : Z) :
  0 ≤ i < m → py_range m !! Z.to_nat i = Some i.
Proof.
  intros Hi. unfold py_range.
  change (map Z.of_nat) with (fmap (M := list) Z.of_nat).
  rewrite list_lookup_fmap, lookup_seq_lt by lia. cbn. f_equal. lia.
Qed.

(** X6: with [n ≥ 1] divisions [find_equidistant_points] returns [n + 1]
    points, one more than the number it is given, and the point at position
    [i] is the interpolation of the end points at [t = i / n]. *)
Theorem find_equidistant_points_length (x1 y1 x2 y2 n : Z) :
  1 ≤ n →
  ∃ points,
    find_equidistant_points x1 y1 x2 y2 n = Return points ∧
    length points = Z.to_nat (n + 1) ∧
    ∀ i, 0 ≤ i ≤ n → points !! Z.to_nat i = Some (point_at x1 y1 x2 y2 n i).
Proof.
  intros Hn. eexists. split; [apply find_equidistant_points_map; lia|]. split.
  - rewrite length_fmap. unfold py_range. by rewrite length_map, length_seq.
  - intros i Hi. rewrite list_lookup_fmap, py_range_lookup by lia. done.
Qed.

Lemma find_equidistant_points_length_witness :
  ∃ points,
    find_equidistant_points 0 0 10 0 5 = Return points ∧
    length points = Z.to_nat (5 + 1) ∧
    ∀ i, 0 ≤ i ≤ 5 → points !! Z.to_nat i = Some (point_at 0 0 10 0 5 i).
Proof. apply (find_equidistant_points_length 0 0 10 0 5). lia. Defined.

(** X7: with no division [find_equidistant_points] raises
    [ZeroDivisionError], with a negative number of divisions it returns the
    empty list. *)
Theorem find_equidistant_points_degenerate (x1 y1 x2 y2 n : Z) :
  n ≤ 0 →
  find_equidistant_points x1 y1 x2 y2 n
  = if n =? 0 then Raise ZeroDivisionError else Return [].
Proof.
  intros Hn. unfold find_equidistant_points, py_range.
  destruct (Z.eqb_spec n 0) as [->|Hne]; [reflexivity|].
  replace (Z.to_nat (n + 1)) with 0%nat by lia. reflexivity.
Qed.

Lemma find_equidistant_points_degenerate_witness :
  find_equidistant_points 1 2 3 4 (-2) = Return [].
Proof. apply (find_equidistant_points_degenerate 1 2 3 4 (-2)). lia. Defined.

(** ** [detect_lines] *)

Lemma for_each_raise {S A : Type} (body : S → A → result S) (l : list A) (s : S)
    (e : exn) :
  for_each body s l = Raise e → ∃ a s', a ∈ l ∧ body s' a = Raise e.
Proof.
  revert s. induction l as [|a l IH]; intros s; cbn [for_each]; [done|].
  destruct (body s a) as [s'|e'] eqn:Hb; cbn.
  - intros (a' & s'' & Ha' & Hb')%IH. exists a', s''. split; [by right | done].
  - intros [= ->]. exists a, s. split; [left | done].
Qed.

Lemma points_in_structure_raise (mask : list (list bool))
    (points : list (float * float)) (e : exn) :
  points_in_structure mask points = Raise e →
  ∃ p, p ∈ points ∧ sample_inside mask p = Raise e.
Proof.
  induction points as [|[x y] points IH]; cbn [points_in_structure]; [done|].
  destruct (sample_inside mask (x, y)) as [inside|e'] eqn:Hs;
    unfold sample_inside in Hs; cbn [fst snd] in Hs.
  - destruct (py_int y); cbn in *; [|done]. destruct (py_int x); cbn in *; [|done].
    rewrite Hs. cbn. destruct inside; [done|].
    intros (p & Hp & Hraise)%IH. exists p. split; [by right | done].
  - intros Hraise. exists (x, y). split; [left|].
    unfold sample_inside. cbn [fst snd].
    destruct (py_int y); cbn in *; [|congruence].
    destruct (py_int x); cbn in *; [|congruence].
    rewrite Hs in Hraise |- *. cbn in Hraise. congruence.
Qed.

(** X8: the array [detect_lines] returns is a [uint8] array exactly when the
    line transform found no segment, and a [bool] array when it found some
    (an empty list of segments included). *)
Theorem detect_lines_dtype `{OpenCV} (image : list (list bool))
    (max_depiction_size : Z * Z) (segmentation_mask : list (list bool))
    (exclusion_mask : ndarray) :
  detect_lines image max_depiction_size segmentation_mask = Return exclusion_mask →
  (∃ a, exclusion_mask = uint8_array a ∧
        hough_lines (np_invert_times_255 image) max_depiction_size = Return None) ∨
  (∃ a lines, exclusion_mask = bool_array a ∧
        hough_lines (np_invert_times_255 image) max_depiction_size = Return (Some lines)).
Proof.
  rewrite detect_lines_unfold.
  destruct (hough_lines _ _) as [[lines|]|e]; cbn; [| |done].
  - intros (m & _ & [= <-])%bind_inv. right. eauto.
  - intros [= <-]. left. eauto.
Qed.

Lemma detect_lines_dtype_witness :
  (∃ a, bool_array [[false; false]] = uint8_array a ∧
        @hough_lines (stand_in_cv (Some [])) (np_invert_times_255 [[true; true]]) (8, 8)
        = Return None) ∨
  (∃ a lines, bool_array [[false; false]] = bool_array a ∧
        @hough_lines (stand_in_cv (Some [])) (np_invert_times_255 [[true; true]]) (8, 8)
        = Return (Some lines)).
Proof.
  apply (@detect_lines_dtype (stand_in_cv (Some [])) [[true; true]] (8, 8) [[false; false]]).
  vm_compute. reflexivity.
Defined.

(** X9: [detect_lines] fails only when the conversion of the size estimate
    fails in the call of the line transform, or when a sample point of a
    detected segment cannot be read in the candidate mask. *)
Theorem detect_lines_raise_cases `{OpenCV} (image : list (list bool))
    (max_depiction_size : Z * Z) (segmentation_mask : list (list bool)) (e : exn) :
  detect_lines image max_depiction_size segmentation_mask = Raise e →
  hough_lines (np_invert_times_255 image) max_depiction_size = Raise e ∨
  ∃ lines segment p,
    hough_lines (np_invert_times_255 image) max_depiction_size = Return (Some lines) ∧
    segment ∈ lines ∧ p ∈ interior_points segment ∧
    sample_inside segmentation_mask p = Raise e.
Proof.
  rewrite detect_lines_unfold.
  destruct (hough_lines _ _) as [[lines|]|e0]; cbn; [| done | intros [= ->]; by left].
  destruct (for_each _ _ lines) as [m|e1] eqn:Hloop; cbn; [done|].
  intros [= ->]. right.
  apply for_each_raise in Hloop as ([[[x1 y1] x2] y2] & m & Hin & Hbody).
  unfold classify_segment in Hbody.
  destruct (points_in_structure _ _) as [[]|e1] eqn:Hp; cbn in Hbody; [done..|].
  injection Hbody as ->.
  apply points_in_structure_raise in Hp as (p & Hp & Hraise).
  by exists lines, (x1, y1, x2, y2), p.
Qed.

Lemma detect_lines_raise_cases_witness :
  @hough_lines (stand_in_cv (Some [(0, 0, 7, 0)])) (np_invert_times_255 [[true]]) (8, 8)
    = Raise IndexError ∨
  ∃ lines segment p,
    @hough_lines (stand_in_cv (Some [(0, 0, 7, 0)])) (np_invert_times_255 [[true]]) (8, 8)
      = Return (Some lines) ∧
    segment ∈ lines ∧ p ∈ interior_points segment ∧
    sample_inside [[false]] p = Raise IndexError.
Proof.
  apply (@detect_lines_raise_cases (stand_in_cv (Some [(0, 0, 7, 0)]))
           [[true]] (8, 8) [[false]] IndexError).
  vm_compute. reflexivity.
Defined.

Lemma for_each_classify_inside `{OpenCV} (mask : list (list bool))
    (lines : list (Z * Z * Z * Z)) (blank : list (list Z)) :
  Forall (λ segment, points_in_structure mask (interior_points segment) = Return true)
         lines →
  for_each (classify_segment mask) blank lines = Return blank.
Proof.
  induction 1 as [|[[[x1 y1] x2] y2] lines Hs _ IH]; [done|].
  cbn [for_each].
  assert (classify_segment mask blank (x1, y1, x2, y2) = Return blank) as ->
    by (unfold classify_segment; by rewrite Hs).
  cbn. apply IH.
Qed.

(** X10: when every detected segment has a sample point inside the candidate
    mask (the sample points before it readable and outside), [detect_lines]
    returns a [bool] array of the shape of the image with no pixel set:
    nothing is drawn. *)
Theorem detect_lines_all_inside `{OpenCV} (image : list (list bool))
    (max_depiction_size : Z * Z) (segmentation_mask : list (list bool))
    (lines : list (Z * Z * Z * Z)) :
  hough_lines (np_invert_times_255 image) max_depiction_size = Return (Some lines) →
  Forall (λ segment,
            ∃ before p after,
              interior_points segment = before ++ p :: after ∧
              Forall (λ q, sample_inside segmentation_mask q = Return false) before ∧
              sample_inside segmentation_mask p = Return true) lines →
  ∃ a, detect_lines image max_depiction_size segmentation_mask = Return (bool_array a) ∧
       length <$> a = length <$> image ∧
       Forall (Forall (λ b, b = false)) a.
Proof.
  intros Hhough Hlines. rewrite detect_lines_unfold, Hhough. cbn.
  rewrite for_each_classify_inside.
  - cbn. eexists. split; [reflexivity|]. split.
    + apply np_zeros_like_shape.
    + apply np_zeros_like_all_false.
  - eapply Forall_impl; [exact Hlines|]. intros segment Hhit.
    by apply points_in_structure_true.
Qed.

Lemma detect_lines_all_inside_witness :
  ∃ a, @detect_lines (stand_in_cv (Some [(0, 0, 3, 0)]))
         [[true; true; true; true]] (8, 8) [[true; false; false; false]]
       = Return (bool_array a) ∧
       length <$> a = length <$> [[true; true; true; true]] ∧
       Forall (Forall (λ b, b = false)) a.
Proof.
  apply (@detect_lines_all_inside (stand_in_cv (Some [(0, 0, 3, 0)]))
           [[true; true; true; true]] (8, 8) [[true; false; false; false]]
           [(0, 0, 3, 0)]).
  - vm_compute. reflexivity.
  - constructor; [|constructor].
    exists [], (point_at 0 0 3 0 7 1), (tl (interior_points (0, 0, 3, 0))).
    split; [reflexivity|]. split; [constructor|].
    vm_compute. reflexivity.
Defined.

(** ** [detect_horizontal_and_vertical_lines] *)

Lemma np_getitem2_fmap {A B : Type} (g : A → B) (a : list (list A)) (y x : Z) (c : B) :
  np_getitem2 (map (map g) a) y x = Return c ↔
  ∃ u, np_getitem2 a y x = Return u ∧ c = g u.
Proof.
  change (map (map g) a) with (fmap (M := list) (fmap (M := list) g) a).
  rewrite np_getitem2_lookup. setoid_rewrite np_getitem2_lookup.
  rewrite length_fmap. split.
  - intros (i & j & row' & Hi & Hrow' & Hj & Hc).
    rewrite list_lookup_fmap in Hrow'.
    destruct (a !! i) as [row|] eqn:Hrow; [|done]. injection Hrow' as <-.
    rewrite length_fmap in Hj. rewrite list_lookup_fmap in Hc.
    destruct (row !! j) as [u|] eqn:Hu; [|done]. injection Hc as <-.
    exists u. split; [|done]. by exists i, j, row.
  - intros (u & (i & j & row & Hi & Hrow & Hj & Hu) & ->).
    exists i, j, (g <$> row).
    rewrite !list_lookup_fmap, Hrow, length_fmap, Hu. done.
Qed.

Lemma np_getitem2_zip_with {A B C : Type} (f : A → B → C)
    (a : list (list A)) (b : list (list B)) (y x : Z) (c : C) :
  length <$> a = length <$> b →
  np_getitem2 (zip_with (zip_with f) a b) y x = Return c ↔
  ∃ u v, np_getitem2 a y x = Return u ∧ np_getitem2 b y x = Return v ∧ c = f u v.
Proof.
  intros Hshape.
  assert (length a = length b) as Hlen
    by (by rewrite <-(length_fmap length a), Hshape, length_fmap).
  assert (∀ i ra rb, a !! i = Some ra → b !! i = Some rb → length ra = length rb) as Hrows.
  { intros i ra rb Ha Hb. apply (f_equal (λ l, l !! i)) in Hshape.
    rewrite !list_lookup_fmap, Ha, Hb in Hshape. by injection Hshape. }
  rewrite np_getitem2_lookup. setoid_rewrite np_getitem2_lookup.
  rewrite length_zip_with, <-Hlen, Nat.min_id. split.
  - intros (i & j & row & Hi & Hrow & Hj & Hc).
    rewrite lookup_zip_with in Hrow.
    destruct (a !! i) as [ra|] eqn:Ha; [|done]. cbn in Hrow.
    destruct (b !! i) as [rb|] eqn:Hb; [|done]. cbn in Hrow. injection Hrow as <-.
    pose proof (Hrows i ra rb Ha Hb) as Hl.
    rewrite length_zip_with, <-Hl, Nat.min_id in Hj.
    rewrite lookup_zip_with in Hc.
    destruct (ra !! j) as [u|] eqn:Hu; [|done]. cbn in Hc.
    destruct (rb !! j) as [v|] eqn:Hv; [|done]. cbn in Hc. injection Hc as <-.
    exists u, v. split_and!; [by exists i, j, ra | | done].
    exists i, j, rb. by rewrite <-Hl.
  - intros (u & v & (i & j & ra & Hi & Ha & Hj & Hu)
                  & (i' & j' & rb & Hi' & Hb & Hj' & Hv) & ->).
    assert (i' = i) as -> by congruence.
    pose proof (Hrows i ra rb Ha Hb) as Hl.
    rewrite <-Hl in Hj'. assert (j' = j) as -> by congruence.
    exists i, j, (zip_with f ra rb).
    rewrite !lookup_zip_with, Ha, Hb, length_zip_with, <-Hl, Nat.min_id. cbn.
    rewrite ?lookup_zip_with, Hu, Hv. done.
Qed.

(** X11: in [detect_horizontal_and_vertical_lines] a pixel of the result is
    set exactly when it is at 255 in the horizontal opening or in the
    vertical opening, and the result can be read where the openings can. *)
Theorem detect_horizontal_and_vertical_lines_pixel `{OpenCV} (image : list (list bool))
    (max_height max_width : Z)
    (horizontal_kernel vertical_kernel horizontal_open vertical_open : list (list Z))
    (y x : Z) (b : bool) :
  getStructuringElement MORPH_RECT (max_width, 1) = Return horizontal_kernel →
  morphologyEx (np_invert_times_255 image) MORPH_OPEN horizontal_kernel 2
    = Return horizontal_open →
  getStructuringElement MORPH_RECT (1, max_height) = Return vertical_kernel →
  morphologyEx (np_invert_times_255 image) MORPH_OPEN vertical_kernel 2
    = Return vertical_open →
  ∃ mask,
    detect_horizontal_and_vertical_lines image (max_height, max_width) = Return mask ∧
    (np_getitem2 mask y x = Return b ↔
     ∃ h v, np_getitem2 horizontal_open y x = Return h ∧
            np_getitem2 vertical_open y x = Return v ∧
            b = (h =? 255) || (v =? 255)).
Proof.
  intros Hhk Hho Hvk Hvo. unfold detect_horizontal_and_vertical_lines.
  rewrite Hhk. cbn. rewrite Hho. cbn. rewrite Hvk. cbn. rewrite Hvo. cbn.
  apply morphologyEx_shape in Hho, Hvo.
  assert (∀ a v, length <$> np_equal a v = length <$> a) as Hequal.
  { intros a v. unfold np_equal. rewrite <-list_fmap_compose.
    apply list_fmap_ext. intros _ row _. cbn. by rewrite length_fmap. }
  assert (length <$> np_equal horizontal_open 255 = length <$> np_equal vertical_open 255)
    as Hshape by (rewrite !Hequal; congruence).
  unfold np_add_bool. rewrite bool_decide_eq_true_2 by done.
  eexists. split; [reflexivity|].
  rewrite (np_getitem2_zip_with _ _ _ _ _ _ Hshape). unfold np_equal. split.
  - intros (u & v & (h & Hh & ->)%np_getitem2_fmap & (w & Hw & ->)%np_getitem2_fmap & ->).
    by exists h, w.
  - intros (h & v & Hh & Hv & ->). exists (h =? 255), (v =? 255).
    split_and!; [| |done]; apply np_getitem2_fmap; eauto.
Qed.

Lemma detect_horizontal_and_vertical_lines_pixel_witness :
  ∃ mask,
    @detect_horizontal_and_vertical_lines (stand_in_cv None)
      [[true; false]; [false; false]] (2, 2) = Return mask ∧
    (np_getitem2 mask 0 1 = Return true ↔
     ∃ h v, np_getitem2 [[0; 255]; [255; 255]] 0 1 = Return h ∧
            np_getitem2 [[0; 255]; [255; 255]] 0 1 = Return v ∧
            true = (h =? 255) || (v =? 255)).
Proof.
  apply (@detect_horizontal_and_vertical_lines_pixel (stand_in_cv None)
           [[true; false]; [false; false]] 2 2 [[1; 1]] [[1]; [1]]);
    vm_compute; reflexivity.
Defined.

(** X12: [detect_horizontal_and_vertical_lines] raises only what one of its
    four OpenCV calls raises; adding the two masks never fails. *)
Theorem detect_horizontal_and_vertical_lines_raise `{OpenCV} (image : list (list bool))
    (max_height max_width : Z) (e : exn) :
  detect_horizontal_and_vertical_lines image (max_height, max_width) = Raise e →
  getStructuringElement MORPH_RECT (max_width, 1) = Raise e ∨
  (∃ kernel, getStructuringElement MORPH_RECT (max_width, 1) = Return kernel ∧
     morphologyEx (np_invert_times_255 image) MORPH_OPEN kernel 2 = Raise e) ∨
  getStructuringElement MORPH_RECT (1, max_height) = Raise e ∨
  (∃ kernel, getStructuringElement MORPH_RECT (1, max_height) = Return kernel ∧
     morphologyEx (np_invert_times_255 image) MORPH_OPEN kernel 2 = Raise e).
Proof.
  unfold detect_horizontal_and_vertical_lines.
  destruct (getStructuringElement MORPH_RECT (max_width, 1)) as [hk|e1]; cbn;
    [|intros [= ->]; by left].
  destruct (morphologyEx _ MORPH_OPEN hk 2) as [ho|e2] eqn:Hho; cbn;
    [|intros [= ->]; right; left; eauto].
  destruct (getStructuringElement MORPH_RECT (1, max_height)) as [vk|e3]; cbn;
    [|intros [= ->]; right; right; by left].
  destruct (morphologyEx _ MORPH_OPEN vk 2) as [vo|e4] eqn:Hvo; cbn;
    [|intros [= ->]; right; right; right; eauto].
  apply morphologyEx_shape in Hho, Hvo. unfold np_add_bool.
  rewrite bool_decide_eq_true_2; [done|].
  unfold np_equal. rewrite <-!list_fmap_compose.
  transitivity (length <$> np_invert_times_255 image).
  - rewrite <-Hho. apply list_fmap_ext. intros _ row _. cbn. by rewrite length_map.
  - rewrite <-Hvo. apply list_fmap_ext. intros _ row _. cbn. by rewrite length_map.
Qed.

Lemma detect_horizontal_and_vertical_lines_raise_witness :
  @getStructuringElement (stand_in_cv None) MORPH_RECT (0, 1) = Raise cv2_error ∨
  (∃ kernel, @getStructuringElement (stand_in_cv None) MORPH_RECT (0, 1) = Return kernel ∧
     @morphologyEx (stand_in_cv None) (np_invert_times_255 [[true]]) MORPH_OPEN kernel 2
     = Raise cv2_error) ∨
  @getStructuringElement (stand_in_cv None) MORPH_RECT (1, 0) = Raise cv2_error ∨
  (∃ kernel, @getStructuringElement (stand_in_cv None) MORPH_RECT (1, 0) = Return kernel ∧
     @morphologyEx (stand_in_cv None) (np_invert_times_255 [[true]]) MORPH_OPEN kernel 2
     = Raise cv2_error).
Proof.
  apply (@detect_horizontal_and_vertical_lines_raise (stand_in_cv None) [[true]] 0 0).
  vm_compute. reflexivity.
Defined.

(** ** [complete_structure_mask] *)

Lemma is_set_lookup (a : list (list bool)) (y x : Z) :
  is_set a y x ↔
  0 ≤ y ∧ 0 ≤ x ∧ (a !! Z.to_nat y ≫= (.!! Z.to_nat x)) = Some true.
Proof.
  rewrite is_set_where_rows, where_rows_elem, Z.sub_0_r. split.
  - intros (Hy & Hx & row & -> & Hrow). done.
  - intros (Hy & Hx & Hlook). split_and!; [done..|].
    destruct (a !! Z.to_nat y) as [row|]; [|done]. by exists row.
Qed.

Lemma in_image_lookup {A : Type} (a : list (list A)) (y x : Z) :
  in_image a y x ↔
  0 ≤ y ∧ 0 ≤ x ∧ ∃ c, (a !! Z.to_nat y ≫= (.!! Z.to_nat x)) = Some c.
Proof.
  unfold in_image, np_getitem2. split.
  - intros (Hy & Hx & c & Hget). split_and!; [done..|]. exists c.
    destruct (py_getitem a y) as [row|] eqn:Hrow; cbn in Hget; [|done].
    apply py_getitem_nonneg in Hrow; [|done]. rewrite Hrow. cbn.
    by apply py_getitem_nonneg in Hget.
  - intros (Hy & Hx & c & Hlook). split_and!; [done..|]. exists c.
    destruct (a !! Z.to_nat y) as [row|] eqn:Hrow; [|done]. cbn in Hlook.
    apply py_getitem_nonneg in Hrow as ->; [|done]. cbn.
    by apply py_getitem_nonneg.
Qed.

Lemma pixel_or_true_iff (a : list (list bool)) (y x : Z) :
  pixel_or true a y x = true ↔ (in_image a y x → is_set a y x).
Proof.
  rewrite in_image_lookup, is_set_lookup. unfold pixel_or.
  destruct (Z.leb_spec 0 y); cbn; [|split; [lia | done]].
  destruct (Z.leb_spec 0 x); cbn; [|split; [lia | done]].
  destruct (a !! Z.to_nat y) as [row|]; cbn.
  - destruct (row !! Z.to_nat x) as [[]|]; cbn.
    + split; done.
    + split; [done|]. intros Hset. destruct Hset as (_ & _ & ?); [eauto | done].
    + split; [|done]. by intros _ (_ & _ & ? & ?).
  - split; [|done]. by intros _ (_ & _ & ? & ?).
Qed.

Lemma pixel_or_false_iff (a : list (list bool)) (y x : Z) :
  pixel_or false a y x = true ↔ is_set a y x.
Proof.
  rewrite is_set_lookup. unfold pixel_or.
  destruct (Z.leb_spec 0 y); cbn; [|split; [done | lia]].
  destruct (Z.leb_spec 0 x); cbn; [|split; [done | lia]].
  destruct (a !! Z.to_nat y) as [row|]; cbn; [|split; [done | by intros (_ & _ & ?)]].
  destruct (row !! Z.to_nat x) as [[]|]; cbn; split; try done; by intros (_ & _ & ?).
Qed.

Lemma np_fromfunction_like_is_set {A : Type} (f : Z → Z → bool) (a : list (list A))
    (y x : Z) :
  is_set (np_fromfunction_like f a) y x ↔ in_image a y x ∧ f y x = true.
Proof.
  rewrite is_set_lookup, in_image_lookup, np_fromfunction_like_lookup. split.
  - intros (Hy & Hx & Hc & Hf). rewrite !Z2Nat.id in Hf by done. done.
  - intros ((Hy & Hx & Hc) & Hf). rewrite !Z2Nat.id by done. done.
Qed.

Lemma np_fromfunction_like_in_image {A : Type} (f : Z → Z → bool) (a : list (list A))
    (y x : Z) :
  in_image (np_fromfunction_like f a) y x ↔ in_image a y x.
Proof.
  rewrite !in_image_lookup. split.
  - intros (Hy & Hx & c & [Hc _]%np_fromfunction_like_lookup). done.
  - intros (Hy & Hx & Hc). split_and!; [done..|]. eexists.
    apply np_fromfunction_like_lookup. done.
Qed.

Lemma binary_erosion_is_set (image selem : list (list bool)) (y x : Z) :
  is_set (binary_erosion image selem) y x ↔
  in_image image y x ∧
  ∀ dy dx, (dy, dx) ∈ selem_offsets selem → pixel_or true image (y + dy) (x + dx) = true.
Proof.
  unfold binary_erosion. rewrite np_fromfunction_like_is_set, forallb_forall.
  split; intros [Him Hall]; (split; [done|]).
  - intros dy dx Hd%list_elem_of_In. apply (Hall (dy, dx) Hd).
  - intros [dy dx] Hd%list_elem_of_In. by apply Hall.
Qed.

Lemma binary_dilation_is_set (image selem : list (list bool)) (y x : Z) :
  is_set (binary_dilation image selem) y x ↔
  in_image image y x ∧
  ∃ dy dx, (dy, dx) ∈ selem_offsets selem ∧ is_set image (y - dy) (x - dx).
Proof.
  unfold binary_dilation. rewrite np_fromfunction_like_is_set, existsb_exists.
  split; intros [Him Hex]; (split; [done|]).
  - destruct Hex as ([dy dx] & Hd%list_elem_of_In & Hp%pixel_or_false_iff). eauto.
  - destruct Hex as (dy & dx & Hd%list_elem_of_In & Hp%pixel_or_false_iff).
    by exists (dy, dx).
Qed.

(** A pixel survives the opening when some placement of the structuring
    element covers it and holds no unset pixel of the image. *)
Lemma opening_is_set (image selem : list (list bool)) (y x : Z) :
  is_set (binary_dilation (binary_erosion image selem) selem) y x ↔
  in_image image y x ∧
  ∃ dy dx, (dy, dx) ∈ selem_offsets selem ∧ in_image image (y - dy) (x - dx) ∧
    ∀ dy' dx', (dy', dx') ∈ selem_offsets selem →
      pixel_or true image (y - dy + dy') (x - dx + dx') = true.
Proof.
  rewrite binary_dilation_is_set. unfold binary_erosion at 1.
  rewrite np_fromfunction_like_in_image.
  split; intros [Him (dy & dx & Hd & Hq)]; (split; [done|]); exists dy, dx.
  - apply binary_erosion_is_set in Hq as [? ?]. done.
  - split; [done|]. by apply binary_erosion_is_set.
Qed.

Lemma selem_offsets_5x5 (dy dx : Z) :
  (dy, dx) ∈ selem_offsets (np_ones 5 5) ↔ -2 ≤ dy ≤ 2 ∧ -2 ≤ dx ≤ 2.
Proof.
  rewrite list_elem_of_In. split.
  - vm_compute. intros H. repeat (destruct H as [[= <- <-] | H]; [done|]). done.
  - intros [Hy Hx].
    assert (dy = -2 ∨ dy = -1 ∨ dy = 0 ∨ dy = 1 ∨ dy = 2) as Hdy by lia.
    assert (dx = -2 ∨ dx = -1 ∨ dx = 0 ∨ dx = 1 ∨ dx = 2) as Hdx by lia.
    destruct Hdy as [-> | [-> | [-> | [-> | ->]]]];
      destruct Hdx as [-> | [-> | [-> | [-> | ->]]]];
      vm_compute; tauto.
Qed.

Lemma opening_shape (image selem : list (list bool)) :
  length <$> binary_dilation (binary_erosion image selem) selem = length <$> image.
Proof.
  unfold binary_dilation, binary_erosion. by rewrite !np_fromfunction_like_shape.
Qed.

Lemma in_image_same_shape {A B : Type} (a : list (list A)) (b : list (list B)) (y x : Z) :
  length <$> a = length <$> b → in_image a y x → in_image b y x.
Proof.
  intros Hshape. rewrite !in_image_lookup. intros (Hy & Hx & c & Hc).
  split_and!; [done..|].
  apply (f_equal (λ l, l !! Z.to_nat y)) in Hshape. rewrite !list_lookup_fmap in Hshape.
  destruct (a !! Z.to_nat y) as [row|]; [|done]. cbn in Hc.
  destruct (b !! Z.to_nat y) as [row'|]; [|done]. cbn in *. injection Hshape as Hl.
  apply lookup_lt_Some in Hc. rewrite Hl in Hc.
  destruct (lookup_lt_is_Some_2 _ _ Hc) as [c' ->]. eauto.
Qed.

Lemma bool_array_eq (a b : list (list bool)) :
  length <$> a = length <$> b →
  (∀ y x, is_set a y x ↔ is_set b y x) →
  a = b.
Proof.
  intros Hshape Hset. apply list_eq. intros i.
  pose proof (f_equal (λ l, l !! i) Hshape) as Hi. cbn in Hi.
  rewrite !list_lookup_fmap in Hi.
  destruct (a !! i) as [ra|] eqn:Ha, (b !! i) as [rb|] eqn:Hb; try done.
  cbn in Hi. injection Hi as Hl. f_equal. apply list_eq. intros j.
  specialize (Hset (Z.of_nat i) (Z.of_nat j)).
  rewrite !is_set_lookup, !Nat2Z.id, Ha, Hb in Hset. cbn in Hset.
  destruct (ra !! j) as [u|] eqn:Hu, (rb !! j) as [v|] eqn:Hv.
  - destruct u, v; try done.
    + destruct Hset as [Hab _]. destruct Hab as (_ & _ & ?); [split_and!; [lia..|done]|done].
    + destruct Hset as [_ Hba]. destruct Hba as (_ & _ & ?); [split_and!; [lia..|done]|done].
  - apply lookup_lt_Some in Hu. apply lookup_ge_None in Hv. lia.
  - apply lookup_lt_Some in Hv. apply lookup_ge_None in Hu. lia.
  - done.
Qed.

(** X13: the structure mask has the shape of the mask it is built from. *)
Theorem complete_structure_mask_shape (image : list (list bool)) :
  length <$> complete_structure_mask image = length <$> image ∧
  np_shape (complete_structure_mask image) = np_shape image.
Proof.
  pose proof (opening_shape image (np_ones 5 5)) as Hshape.
  fold (complete_structure_mask image) in Hshape. split; [done|].
  unfold np_shape. rewrite <-(length_fmap length), Hshape, length_fmap. f_equal.
  destruct (complete_structure_mask image), image; cbn in *; congruence.
Qed.

(** X14: a pixel is set in the structure mask exactly when some 5×5 window
    centred at a pixel of the image covers it and holds no unset pixel of the
    image; the part of a window that sticks out of the image is ignored, so
    a region touching the border survives with fewer than 5×5 pixels. *)
Theorem complete_structure_mask_window (image : list (list bool)) (y x : Z) :
  is_set (complete_structure_mask image) y x ↔
  in_image image y x ∧
  ∃ qy qx, in_image image qy qx ∧ -2 ≤ y - qy ≤ 2 ∧ -2 ≤ x - qx ≤ 2 ∧
           window_set image qy qx.
Proof.
  unfold complete_structure_mask. rewrite opening_is_set. unfold window_set.
  split; intros [Him Hex]; (split; [done|]).
  - destruct Hex as (dy & dx & Hd%selem_offsets_5x5 & Hq & Hall).
    exists (y - dy), (x - dx). split_and!; [done | lia.. |].
    intros dy' dx' Hdy' Hdx'. apply pixel_or_true_iff, Hall, selem_offsets_5x5. done.
  - destruct Hex as (qy & qx & Hq & Hdy & Hdx & Hall).
    exists (y - qy), (x - qx). rewrite selem_offsets_5x5.
    replace (y - (y - qy)) with qy by lia. replace (x - (x - qx)) with qx by lia.
    split_and!; [lia | lia | lia | lia | done |].
    intros dy' dx' [? ?]%selem_offsets_5x5. apply pixel_or_true_iff. by apply Hall.
Qed.

Lemma opening_idempotent (image selem : list (list bool)) :
  binary_dilation (binary_erosion
    (binary_dilation (binary_erosion image selem) selem) selem) selem
  = binary_dilation (binary_erosion image selem) selem.
Proof.
  set (opened := binary_dilation (binary_erosion image selem) selem).
  pose proof (opening_shape image selem) as Hshape. fold opened in Hshape.
  apply bool_array_eq; [by rewrite opening_shape|].
  intros y x. rewrite opening_is_set. split.
  - intros [Him (dy & dx & Hd & Hq & Hall)].
    specialize (Hall dy dx Hd). rewrite pixel_or_true_iff in Hall.
    replace (y - dy + dy) with y in Hall by lia.
    replace (x - dx + dx) with x in Hall by lia. by apply Hall.
  - intros Hset. pose proof Hset as [Him (dy & dx & Hd & Hq & Hall)]%opening_is_set.
    split; [by apply (in_image_same_shape image)|].
    exists dy, dx. split_and!; [done | by apply (in_image_same_shape image) |].
    intros dy' dx' Hd'. apply pixel_or_true_iff. intros Hr.
    apply opening_is_set. split; [by apply (in_image_same_shape opened)|].
    exists dy', dx'.
    replace (y - dy + dy' - dy') with (y - dy) by lia.
    replace (x - dx + dx' - dx') with (x - dx) by lia. done.
Qed.

(** X15: building the structure mask is idempotent: applied to a structure
    mask it changes nothing. *)
Theorem complete_structure_mask_idempotent (image : list (list bool)) :
  complete_structure_mask (complete_structure_mask image)
  = complete_structure_mask image.
Proof. apply opening_idempotent. Qed.

(** X16: building the structure mask is monotone: when every set pixel of
    one mask is set in another of the same shape, every set pixel of its
    structure mask is set in the structure mask of the other. *)
Theorem complete_structure_mask_monotone (image image' : list (list bool)) (y x : Z) :
  length <$> image = length <$> image' →
  (∀ y x, is_set image y x → is_set image' y x) →
  is_set (complete_structure_mask image) y x →
  is_set (complete_structure_mask image') y x.
Proof.
  intros Hshape Hsub. unfold complete_structure_mask. rewrite !opening_is_set.
  intros [Him (dy & dx & Hd & Hq & Hall)].
  split; [by apply (in_image_same_shape image)|].
  exists dy, dx. split_and!; [done | by apply (in_image_same_shape image) |].
  intros dy' dx' Hd'. apply pixel_or_true_iff. intros Hr. apply Hsub.
  apply (pixel_or_true_iff image); [by apply Hall|].
  by apply (in_image_same_shape image').
Qed.

Lemma complete_structure_mask_monotone_witness :
  is_set (complete_structure_mask [[true; true]; [true; true]]) 0 0.
Proof.
  apply (complete_structure_mask_monotone
           [[true; true]; [true; true]] [[true; true]; [true; true]] 0 0).
  - reflexivity.
  - intros y x Hset. exact Hset.
  - vm_compute. split_and!; [discriminate.. | reflexivity].
Defined.

(** ** [binarize_image] and [detect_chemical_structures] *)

Lemma opening_subset (image selem : list (list bool)) (y x : Z) :
  is_set (binary_dilation (binary_erosion image selem) selem) y x → is_set image y x.
Proof.
  intros [Him (dy & dx & Hd & _ & Hall)]%opening_is_set.
  specialize (Hall dy dx Hd). rewrite pixel_or_true_iff in Hall.
  replace (y - dy + dy) with y in Hall by lia.
  replace (x - dx + dx) with x in Hall by lia. by apply Hall.
Qed.

Lemma binarize_image_shape `{Skimage} (image : list (list (list float)))
    (threshold : threshold_arg) :
  length <$> binarize_image image threshold = length <$> rgb2gray image.
Proof.
  unfold binarize_image. cbn zeta.
  change (map (map ?g) ?a) with (fmap (M := list) (fmap (M := list) g) a).
  rewrite <-list_fmap_compose. apply list_fmap_ext. intros _ row _. cbn.
  by rewrite length_fmap.
Qed.

(** X17: in the pair [detect_chemical_structures] returns, the structure mask
    has the shape of the grey-level image, and each of its set pixels is a
    pixel whose grey value exceeds the Otsu threshold: the structure mask
    lies within the binarized image. *)
Theorem detect_chemical_structures_structure_mask `{OpenCV} `{Skimage}
    (image : list (list (list float))) (structure_mask : list (list bool))
    (exclusion_mask : ndarray) :
  detect_chemical_structures image = Return (structure_mask, exclusion_mask) →
  length <$> structure_mask = length <$> rgb2gray image ∧
  ∀ y x, is_set structure_mask y x →
    ∃ grey, np_getitem2 (rgb2gray image) y x = Return grey ∧
            (threshold_otsu (rgb2gray image) <? grey)%float = true.
Proof.
  unfold detect_chemical_structures. cbn zeta.
  intros (e & _ & [= <- _])%bind_inv. split.
  - unfold complete_structure_mask. by rewrite opening_shape, binarize_image_shape.
  - intros y x Hset. unfold complete_structure_mask in Hset.
    apply opening_subset in Hset as (_ & _ & Hget).
    unfold binarize_image in Hget. cbn zeta in Hget.
    apply np_getitem2_fmap in Hget as (grey & Hgrey & Hlt). eauto.
Qed.

Lemma detect_chemical_structures_structure_mask_witness :
  length <$> [[true; true]] = length <$> @rgb2gray stand_in_skimage [[[1]; [1]]]%float ∧
  ∀ y x, is_set [[true; true]] y x →
    ∃ grey, np_getitem2 (@rgb2gray stand_in_skimage [[[1]; [1]]]%float) y x = Return grey ∧
            (@threshold_otsu stand_in_skimage (@rgb2gray stand_in_skimage [[[1]; [1]]]%float)
               <? grey)%float = true.
Proof.
  apply (@detect_chemical_structures_structure_mask (stand_in_cv None) stand_in_skimage
           [[[1]; [1]]]%float [[true; true]] (uint8_array [[0; 0]])).
  vm_compute. reflexivity.
Defined.

Lemma np_invert_times_255_invert (a : list (list bool)) :
  np_invert_times_255 (np_invert a) = map (map (λ b : bool, if b then 255 else 0)) a.
Proof.
  unfold np_invert_times_255, np_invert. rewrite map_map. apply map_ext.
  intros row. rewrite map_map. apply map_ext. by intros [].
Qed.

(** X18: [detect_chemical_structures] runs the line transform on the
    structure mask itself, 255 where it is set (the two inversions cancel),
    with the size estimate (height // 10, width // 10); when the transform
    finds no segment there, the result is the structure mask with a blank
    [uint8] exclusion mask of its shape. *)
Theorem detect_chemical_structures_no_segments `{OpenCV} `{Skimage}
    (image : list (list (list float))) :
  hough_lines
    (map (map (λ b : bool, if b then 255 else 0))
         (complete_structure_mask (binarize_image image otsu)))
    (Z.of_nat (length image) `div` 10, Z.of_nat (length (hd [] image)) `div` 10)
    = Return None →
  ∃ blank,
    detect_chemical_structures image
    = Return (complete_structure_mask (binarize_image image otsu), uint8_array blank) ∧
    length <$> blank = length <$> complete_structure_mask (binarize_image image otsu) ∧
    Forall (Forall (λ v, v = 0)) blank.
Proof.
  intros Hhough. unfold detect_chemical_structures. cbn zeta.
  rewrite detect_lines_unfold, np_invert_times_255_invert, Hhough. cbn.
  eexists. split; [reflexivity|]. split.
  - unfold np_zeros_like.
    change (map (map ?g) ?a) with (fmap (M := list) (fmap (M := list) g) a).
    rewrite <-!list_fmap_compose. apply list_fmap_ext. intros _ row _. cbn.
    by rewrite !length_fmap.
  - unfold np_zeros_like. rewrite Forall_fmap. apply Forall_true. intros row. cbn.
    rewrite Forall_fmap. by apply Forall_true.
Qed.

Lemma detect_chemical_structures_no_segments_witness :
  ∃ blank,
    @detect_chemical_structures (stand_in_cv None) stand_in_skimage [[[1]; [0]]]%float
    = Return (complete_structure_mask
                (@binarize_image stand_in_skimage [[[1]; [0]]]%float otsu),
              uint8_array blank) ∧
    length <$> blank
    = length <$> complete_structure_mask
                   (@binarize_image stand_in_skimage [[[1]; [0]]]%float otsu) ∧
    Forall (Forall (λ v, v = 0)) blank.
Proof.
  apply (@detect_chemical_structures_no_segments (stand_in_cv None) stand_in_skimage
           [[[1]; [0]]]%float).
  vm_compute. reflexivity.
Defined.
